(** * loopback-connector-sqlite3: value coercion, DDL building and migration

    A shallow embedding of [lib/sqlite3.js] and [lib/migration.js] (and of the
    older PostgreSQL-derived variant of the connector that the repository
    still carries), with the properties of the connector's specification
    stated and proved over it.

    JavaScript values are a tagged union; numbers are IEEE-754 doubles
    ([PrimFloat]); strings are [string]s of code units (the embedding treats
    identifiers and SQL text as ASCII).  Built-ins and third-party calls the
    connector relies on ([Number] on a string, number printing, [moment],
    [JSON]) are the fields of the [Runtime] class. *)

From Stdlib Require Import Bool List String Ascii ZArith Lia Floats Uint63 DecimalString.
Import ListNotations.

Local Open Scope list_scope.
Local Open Scope string_scope.

(** ** JavaScript values and the built-ins the connector uses *)

Module JS.

Inductive value : Type :=
| VUndefined
| VNull
| VBool (b : bool)
| VNum (n : float)
| VStr (s : string)
| VError (msg : string)          (* an object made by [Error(msg)] *)
| VInvalidParam (msg : string)   (* an object made by [new InvalidParam(msg)] *)
| VDate (t : float)              (* a [Date] object and its time value *)
| VObject (ref : nat).           (* any other object, by reference *)

(** What the host and the libraries provide. *)
Class Runtime : Type := {
  (* ECMAScript StringToNumber, as used by [Number(s)], [isNaN(s)], [+s] *)
  StringToNumber : string -> float;
  (* ECMAScript Number::toString *)
  NumberToString : float -> string;
  (* conversions of a [Date] and of an arbitrary object in [str + v] *)
  DateToString : float -> string;
  ObjectToString : nat -> string;
  ObjectToNumber : nat -> float;
  (* [moment(s).isValid()] and [moment(s).unix()] *)
  momentIsValid : string -> bool;
  momentUnix : string -> float;
  (* [JSON.parse(v)]: [None] when it throws; [JSON.stringify(v)] *)
  JSONparse : value -> option value;
  JSONstringify : value -> value;
  (* the time value of [new Date(v)] *)
  DateTimeValue : value -> float
}.

Section Builtins.
Context {R : Runtime}.

(** [Error.prototype.toString] of an [Error(msg)]. *)
Definition ErrorToString (msg : string) : string :=
  if String.eqb msg "" then "Error" else "Error: " ++ msg.

(** The string a value contributes to [str + v] and to [String(v)]. *)
Definition ToString (v : value) : string :=
  match v with
  | VUndefined => "undefined"
  | VNull => "null"
  | VBool true => "true"
  | VBool false => "false"
  | VNum n => NumberToString n
  | VStr s => s
  | VError msg => ErrorToString msg
  | VInvalidParam _ => "[object Object]"
  | VDate t => DateToString t
  | VObject r => ObjectToString r
  end.

(** [Number(v)], [+v]. *)
Definition ToNumber (v : value) : float :=
  match v with
  | VUndefined => nan
  | VNull => 0%float
  | VBool true => 1%float
  | VBool false => 0%float
  | VNum n => n
  | VStr s => StringToNumber s
  | VError msg => StringToNumber (ErrorToString msg)
  | VInvalidParam _ => StringToNumber "[object Object]"
  | VDate t => t
  | VObject r => ObjectToNumber r
  end.

(** The global [isNaN]. *)
Definition isNaN (v : value) : bool := PrimFloat.is_nan (ToNumber v).

(** [a + b] with a string on the left. *)
Definition concat (s : string) (v : value) : string := s ++ ToString v.

End Builtins.

(** [!!v]. *)
Definition truthy (v : value) : bool :=
  match v with
  | VUndefined | VNull => false
  | VBool b => b
  | VNum n => negb (PrimFloat.eqb n 0%float || PrimFloat.is_nan n)
  | VStr s => negb (String.eqb s "")
  | VError _ | VInvalidParam _ | VDate _ | VObject _ => true
  end.

(** [a === b]. Objects are equal when they are the same object; the
    embedding builds [Error], [InvalidParam] and [Date] objects afresh, so
    two of them are never the same object. *)
Definition strict_eq (a b : value) : bool :=
  match a, b with
  | VUndefined, VUndefined => true
  | VNull, VNull => true
  | VBool x, VBool y => Bool.eqb x y
  | VNum x, VNum y => PrimFloat.eqb x y
  | VStr x, VStr y => String.eqb x y
  | VObject x, VObject y => Nat.eqb x y
  | _, _ => false
  end.

(** [v == null]. *)
Definition eq_null (v : value) : bool :=
  match v with VUndefined | VNull => true | _ => false end.

Definition typeof_string (v : value) : bool :=
  match v with VStr _ => true | _ => false end.

Definition instanceofError (v : value) : bool :=
  match v with VError _ => true | _ => false end.

Definition instanceofInvalidParam (v : value) : bool :=
  match v with VInvalidParam _ => true | _ => false end.

(** [arr.indexOf(v) !== -1]. *)
Definition includes (arr : list value) (v : value) : bool :=
  existsb (fun x => strict_eq x v) arr.

(** *** Strings *)

Definition lower_ascii (c : ascii) : ascii :=
  let n := nat_of_ascii c in
  if (65 <=? n)%nat && (n <=? 90)%nat then ascii_of_nat (n + 32) else c.

Fixpoint toLowerCase (s : string) : string :=
  match s with
  | EmptyString => EmptyString
  | String c s' => String (lower_ascii c) (toLowerCase s')
  end.

Definition upper_ascii (c : ascii) : ascii :=
  let n := nat_of_ascii c in
  if (97 <=? n)%nat && (n <=? 122)%nat then ascii_of_nat (n - 32) else c.

Fixpoint toUpperCase (s : string) : string :=
  match s with
  | EmptyString => EmptyString
  | String c s' => String (upper_ascii c) (toUpperCase s')
  end.

Definition is_space (c : ascii) : bool :=
  let n := nat_of_ascii c in
  (n =? 32)%nat || ((9 <=? n)%nat && (n <=? 13)%nat).

Fixpoint trimStart (s : string) : string :=
  match s with
  | EmptyString => EmptyString
  | String c s' => if is_space c then trimStart s' else s
  end.

Fixpoint rev_string (s acc : string) : string :=
  match s with
  | EmptyString => acc
  | String c s' => rev_string s' (String c acc)
  end.

Definition trim (s : string) : string :=
  rev_string (trimStart (rev_string (trimStart s) "")) "".

(** [s.split(',')]. *)
Fixpoint split_on (sep : ascii) (s : string) (cur : string) : list string :=
  match s with
  | EmptyString => [rev_string cur ""]
  | String c s' =>
      if Ascii.eqb c sep then rev_string cur "" :: split_on sep s' ""
      else split_on sep s' (String c cur)
  end.

Definition split_comma (s : string) : list string := split_on "," s "".

(** [arr.join(sep)]. *)
Definition join (sep : string) (l : list string) : string := String.concat sep l.

(** [s.indexOf(p) === 0]. *)
Definition startsWith (p s : string) : bool := String.prefix p s.

(** [util.format(f, args...)] for the directives the connector uses: [%s]
    takes the next argument, [%%] is a percent sign; arguments left over are
    appended, each after a space. *)
Fixpoint format_aux (f : string) (args : list string) : string :=
  match f with
  | EmptyString => String.concat "" (map (fun a => " " ++ a) args)
  | String "%" (String "s" f') =>
      match args with
      | a :: args' => a ++ format_aux f' args'
      | [] => "%s" ++ format_aux f' []
      end
  | String "%" (String "%" f') => "%" ++ format_aux f' args
  | String c f' => String c (format_aux f' args)
  end.

Definition fmt (f : string) (args : list string) : string := format_aux f args.

End JS.

(** ** The connector: [lib/sqlite3.js] *)

Module Sqlite3.
Import JS.

(** The connector-specific part of a property, [property.sqlite3]. *)
Record ColumnMeta : Type := {
  dataType : option string;
  dataLength : value;
  dbDefault : value
}.

(** A property of a model definition; [prop_type] is [property.type.name]. *)
Record Property : Type := {
  prop_type : string;
  prop_id : value;
  prop_sqlite3 : option ColumnMeta;
  prop_length : value;
  prop_limit : value;
  prop_index : value;
  (* read by the inherited [isNullable] *)
  prop_required : value;
  prop_nullable : value;
  prop_null : value;
  prop_allowNull : value
}.

(** One entry of [settings.indexes]; [keys] is an array of names or an object
    whose own keys are the names. *)
Inductive IndexKeys : Type :=
| KeysArray (l : list string)
| KeysObject (l : list string).

Record IndexDef : Type := {
  idx_columns : option string;
  idx_keys : option IndexKeys
}.

(** A model definition: the properties in the order [for ... in] and
    [Object.keys] enumerate them, and [settings.indexes] when there is one. *)
Record ModelDefinition : Type := {
  properties : list (string * Property);
  settings_indexes : option (list (string * IndexDef))
}.

(** [properties[name]]. *)
Fixpoint lookup {A : Type} (name : string) (l : list (string * A)) : option A :=
  match l with
  | [] => None
  | (k, v) :: l' => if String.eqb k name then Some v else lookup name l'
  end.

(** What the connector inherits from loopback-connector's [SqlConnector]. *)
Class SqlConnector : Type := {
  getModelDefinition : string -> ModelDefinition;
  tableEscaped : string -> string;
  column : string -> string -> string;
  columnMetadata : string -> string -> option ColumnMeta;
  isNullable : Property -> bool
}.

(** [SQLite3.prototype.dbName] *)
Definition dbName (name : string) : string :=
  if String.eqb name "" then name else toLowerCase name.

(** The double-quote character. *)
Definition dquote : ascii := "034"%char.

(** [name.replace(re, r)] where [re] matches every double quote and [r] is
    two double quotes. *)
Fixpoint replace_quotes (name : string) : string :=
  match name with
  | EmptyString => EmptyString
  | String c s =>
      if Ascii.eqb c dquote then String dquote (String dquote (replace_quotes s))
      else String c (replace_quotes s)
  end.

(** [SQLite3.prototype.escapeName]: the string [replace] builds is dropped,
    and the name itself goes between the quotes. *)
Definition escapeName (name : string) : string :=
  if String.eqb name "" then name
  else
    let _ := replace_quotes name in
    String dquote (name ++ String dquote EmptyString).

(** [SQLite3.prototype.escapeValue] *)
Definition escapeValue (v : value) : value := v.

(** [_convertBoolean] *)
Definition booleanTrue : list value :=
  [VStr "t"; VStr "T"; VStr "y"; VStr "Y"; VStr "1"; VNum 1%float; VBool true].

Definition booleanFalse : list value :=
  [VStr "f"; VStr "F"; VStr "n"; VStr "N"; VStr "0"; VNum 0%float; VBool false].

Section Coercion.
Context {R : Runtime}.

Definition _convertBoolean (v : value) : value :=
  if includes booleanTrue v then VNum 1%float
  else if includes booleanFalse v then VNum 0%float
  else VError (concat "SQLITE3: Invalid boolean default: " v).

(** The members of a [case] group of [switch (property.type.name)]. *)
Definition is_one_of (names : list string) (s : string) : bool :=
  existsb (String.eqb s) names.

(** [SQLite3.prototype._getDefaultClause]: a string, or an [Error]. *)
Definition _getDefaultClause (property : option Property) : value :=
  match property with
  | None => VStr ""
  | Some p =>
    match prop_sqlite3 p with
    | None => VStr ""
    | Some meta =>
      if negb (truthy (dbDefault meta)) then VStr ""
      else
        let v := dbDefault meta in
        if String.eqb (prop_type p) "Number" then
          if isNaN v then VError (concat "Invalid numeric default: " v)
          else VStr (concat " DEFAULT " (VNum (ToNumber v)))
        else if String.eqb (prop_type p) "Boolean" then
          VStr (concat "DEFAULT " (_convertBoolean v))
        else if String.eqb (prop_type p) "Date" then
          if strict_eq v (VStr "now") then
            VStr " DEFAULT (CAST(STRFTIME('%s', 'now') AS INTEGER)*1000)"
          else if negb (isNaN v) then VStr (concat " DEFAULT " v)
          else
            match v with
            | VStr s =>
                if negb (isNaN v) then
                  VStr (concat " DEFAULT " (VNum (ToNumber v)))
                else if negb (momentIsValid s) then
                  VStr (concat " DEFAULT "
                          (VNum (PrimFloat.mul (momentUnix s) 1000%float)))
                else VError (concat "Invalid date default: " v)
            | _ => VError (concat "Invalid date default: " v)
            end
        else if String.eqb (prop_type p) "String" then
          VStr (concat ("DEFAULT " ++ String dquote EmptyString) (escapeValue v)
                  ++ String dquote EmptyString)
        else
          VError ("Default value for " ++ prop_type p ++ " is not supported")
    end
  end.

(** [SQLite3.prototype._buildColumnType] *)
Definition _buildColumnType (property : Property) : string :=
  if String.eqb (prop_type property) "Number" then
    if truthy (prop_id property) then "INTEGER" else "REAL"
  else if is_one_of ["Boolean"; "Date"] (prop_type property) then "INTEGER"
  else if is_one_of ["String"; "GeoPoint"; "Point"; "List"; "Array";
                     "Object"; "JSON"] (prop_type property) then "TEXT"
  else "TEXT".

(** [SQLite3.prototype.toColumnValue] *)
Definition toColumnValue (property : option Property) (v : value) : value :=
  if eq_null v then VNull
  else
    match property with
    | None => v
    | Some p =>
      if String.eqb (prop_type p) "Number" then
        if isNaN v then VInvalidParam (concat "SQLITE3: Invalid number: " v)
        else VNum (ToNumber v)
      else if String.eqb (prop_type p) "Boolean" then
        let b := _convertBoolean v in b
      else if String.eqb (prop_type p) "String" then v
      else if is_one_of ["GeoPoint"; "Point"; "List"; "Object";
                         "ModelConstructor"] (prop_type p) then
        JSONstringify v
      else if String.eqb (prop_type p) "JSON" then
        match JSONparse v with
        | None => VInvalidParam (concat "SQLITE3: Invalid JSON: " v)
        | Some _ => VStr (ToString v)
        end
      else if String.eqb (prop_type p) "Date" then
        if negb (isNaN v) then VNum (ToNumber v)
        else
          match v with
          | VStr s =>
              if negb (momentIsValid s) then
                VNum (PrimFloat.mul (momentUnix s) 1000%float)
              else VInvalidParam (concat "SQLITE3: Invalid JSON: " v)
          | _ => VInvalidParam (concat "SQLITE3: Invalid JSON: " v)
          end
      else v
    end.

(** [SQLite3.prototype.fromColumnValue]; [None] when [JSON.parse] throws. *)
Definition fromColumnValue (property : option Property) (v : value)
  : option value :=
  match strict_eq v VNull, property with
  | true, _ | _, None => Some v
  | false, Some p =>
    if String.eqb (prop_type p) "Number" then Some (VNum (ToNumber v))
    else if String.eqb (prop_type p) "Boolean" then
      Some (VBool (strict_eq v (VStr "Y") || strict_eq v (VStr "y") ||
                   strict_eq v (VStr "T") || strict_eq v (VStr "t") ||
                   strict_eq v (VStr "1") || strict_eq v (VNum 1%float)))
    else if String.eqb (prop_type p) "String" then Some (VStr (ToString v))
    else if is_one_of ["GeoPoint"; "Point"; "List"; "Array"; "Object";
                       "ModelConstructor"] (prop_type p) then
      JSONparse v
    else if String.eqb (prop_type p) "JSON" then Some (VStr (ToString v))
    else if String.eqb (prop_type p) "Date" then
      Some (VDate (DateTimeValue v))
    else Some v
  end.

End Coercion.

(** *** Column and table DDL *)

Section DDL.
Context {R : Runtime} {C : SqlConnector}.

(** [a || b] on values. *)
Definition or_else (a b : value) : value := if truthy a then a else b.

(** [SQLite3.prototype._columnDataType]: a string, or [null] when the model
    has no such property. *)
Definition _columnDataType (model propertyName : string) : value :=
  let columnMetadata := columnMetadata model propertyName in
  let colType :=
    match columnMetadata with
    | Some m =>
        match dataType m with
        | Some t => if String.eqb t "" then Some t else Some (toUpperCase t)
        | None => None
        end
    | None => None
    end in
  match lookup propertyName (properties (getModelDefinition model)) with
  | None => VNull
  | Some property =>
      let colLength :=
        or_else (or_else (match columnMetadata with
                          | Some m => dataLength m
                          | None => VUndefined
                          end) (prop_length property)) (prop_limit property) in
      match colType with
      | Some t =>
          if negb (String.eqb t "") && truthy colLength
          then VStr (concat (t ++ "(") colLength ++ ")")
          else VStr (_buildColumnType property)
      | None => VStr (_buildColumnType property)
      end
  end.

(** [SQLite3.prototype._buildColumnDefinition]; [None] when it throws (the
    model has no such property). *)
Definition _buildColumnDefinition (model propertyName : string)
  : option value :=
  let property := lookup propertyName (properties (getModelDefinition model)) in
  let defaultClause := _getDefaultClause property in
  if instanceofError defaultClause then Some defaultClause
  else
    let columnName := column model propertyName in
    match property with
    | None => None
    | Some p =>
        Some (VStr (concat
                      (concat (String dquote (columnName ++ String dquote " "))
                              (_columnDataType model propertyName))
                      defaultClause
                    ++ (if isNullable p then "" else " NOT NULL")
                    ++ (if truthy (prop_id p) then " PRIMARY KEY" else "")))
    end.

(** The loop of [buildColumnDefinitions]: [line] holds the definitions
    built so far; an [Error] ends it. *)
Fixpoint buildColumnDefinitions_loop (model : string) (names : list string)
         (line : list string) : option value :=
  match names with
  | [] => Some (VStr (join "," line))
  | propertyName :: rest =>
      match _buildColumnDefinition model propertyName with
      | None => None
      | Some colDef =>
          if instanceofError colDef then Some colDef
          else buildColumnDefinitions_loop model rest
                 (line ++ [ToString colDef])%list
      end
  end.

(** [SQLite3.prototype.buildColumnDefinitions] *)
Definition buildColumnDefinitions (model : string) : option value :=
  buildColumnDefinitions_loop model
    (map fst (properties (getModelDefinition model))) [].

(** The local [escape] of [_buildColumnIndexes] and of [_alterTable]. *)
Definition escape (name : string) : string := escapeName (toLowerCase name).

Definition create_index (name table cols : string) : string :=
  fmt "CREATE INDEX IF NOT EXISTS %s ON %s (%s)" [name; table; cols].

(** The first loop of [_buildColumnIndexes], over the properties. *)
Definition property_indexes (model : string) : list string :=
  let props := properties (getModelDefinition model) in
  flat_map
    (fun propertyName =>
       if String.eqb propertyName "" then []
       else
         match lookup propertyName props with
         | Some property =>
             if truthy (prop_index property) then
               [create_index (escape (model ++ "_" ++ propertyName))
                             (tableEscaped model) (escape propertyName)]
             else []
         | None => []
         end)
    (map fst props).

(** The second loop, over [settings.indexes].  [columns] is declared with
    [var] inside the loop body, so an entry that names neither [columns]
    nor [keys] sees the array the entry before it left there. *)
Fixpoint settings_indexes_loop (model : string)
         (entries : list (string * IndexDef))
         (columns : option (list string)) : list string :=
  match entries with
  | [] => []
  | (index, def) :: rest =>
      if String.eqb index "" then settings_indexes_loop model rest columns
      else
        let columns :=
          match idx_columns def, idx_keys def with
          | Some c, k =>
              if negb (String.eqb c "") then Some (split_comma c)
              else match k with
                   | Some (KeysArray l) => Some l
                   | Some (KeysObject l) => Some l
                   | None => columns
                   end
          | None, Some (KeysArray l) => Some l
          | None, Some (KeysObject l) => Some l
          | None, None => columns
          end in
        match columns with
        | None => settings_indexes_loop model rest columns
        | Some cols =>
            let cols := map (fun c => trim (dbName c)) cols in
            create_index
              (escape (if negb (String.eqb index "") then index
                       else model ++ "_" ++ join "_" cols))
              (tableEscaped model) (join "," (map escape cols))
            :: settings_indexes_loop model rest (Some cols)
        end
  end.

(** [SQLite3.prototype._buildColumnIndexes] *)
Definition _buildColumnIndexes (model : string) : list string :=
  (property_indexes model ++
   match settings_indexes (getModelDefinition model) with
   | Some entries => settings_indexes_loop model entries None
   | None => []
   end)%list.

End DDL.

(** *** Statement execution *)

(** Which of the driver's entry points a statement goes to. *)
Inductive Method : Type := All | Run.

(** One statement handed to the driver: the connection, the entry point, the
    SQL text and the parameters bound to it. *)
Record Call : Type := {
  call_client : nat;
  call_method : Method;
  call_sql : string;
  call_params : list value
}.

Definition Row : Type := list (string * value).

(** What the driver passes to [processResult]: [err], [rows], and the
    [changes] and [lastID] of the statement object when it has them. *)
Record Reply : Type := {
  reply_err : option string;
  reply_rows : option (list Row);
  reply_changes : option value;
  reply_lastID : option value
}.

(** The [result] object given to the callback. *)
Record Result : Type := {
  res_rows : list Row;
  res_count : option value;
  res_lastID : option value
}.

(** [options.transaction] *)
Record Transaction : Type := {
  tx_connection : option nat;
  tx_connector_is_this : bool
}.

(** An options object, by key. *)
Definition Options : Type := list (string * Transaction).

(** The node-sqlite3 binding over a database of type [Db]: opening a
    connection and running one statement. *)
Class Driver (Db : Type) : Type := {
  open : Db -> (string + nat) * Db;
  exec : Call -> Db -> Reply * Db
}.

(** The connector's state and what it has handed to the driver so far. *)
Record World (Db : Type) : Type := {
  db : Db;
  _defaultConnection : option nat;
  calls : list Call
}.
Arguments db {Db} _.
Arguments _defaultConnection {Db} _.
Arguments calls {Db} _.

(** The SQL texts handed to the driver so far, oldest first. *)
Definition statements {Db : Type} (w : World Db) : list string :=
  map call_sql (calls w).

(** How a callback-taking function ends: the callback gets a result, the
    callback gets an error, or an exception is thrown. *)
Inductive Outcome (A : Type) : Type :=
| Done (a : A)
| Failed (err : string)
| Thrown (exc : string).
Arguments Done {A} _.
Arguments Failed {A} _.
Arguments Thrown {A} _.

Definition M (Db A : Type) : Type := World Db -> Outcome A * World Db.

Definition ret {Db A : Type} (a : A) : M Db A := fun w => (Done a, w).

Definition bind {Db A B : Type} (m : M Db A) (k : A -> M Db B) : M Db B :=
  fun w =>
    match m w with
    | (Done a, w') => k a w'
    | (Failed e, w') => (Failed e, w')
    | (Thrown e, w') => (Thrown e, w')
    end.

Notation "x <- m ;; k" := (bind m (fun x => k))
  (at level 61, m at next level, right associativity).

Definition is_Done {A : Type} (o : Outcome A) : bool :=
  match o with Done _ => true | _ => false end.

(** [m] hands the driver a prefix of [plan], whatever the state it starts
    from, and all of [plan] when it ends well. *)
Definition hands_over {Db A : Type} (m : M Db A) (plan : list string) : Prop :=
  forall w,
    exists l,
      statements (snd (m w)) = (statements w ++ l)%list /\
      (exists rest, plan = (l ++ rest)%list) /\
      (is_Done (fst (m w)) = true -> l = plan).

(** [async.eachSeries(items, f, cb)] *)
Fixpoint eachSeries {Db A : Type} (items : list A) (f : A -> M Db unit)
  : M Db unit :=
  match items with
  | [] => ret tt
  | x :: rest => _ <- f x ;; eachSeries rest f
  end.

(** [async.series(tasks, cb)] *)
Definition series {Db : Type} (tasks : list (M Db unit)) : M Db unit :=
  eachSeries tasks (fun task => task).

(** [s.match(re)] for a case-insensitive literal [re]. *)
Fixpoint contains (sub s : string) : bool :=
  String.prefix sub s ||
  match s with
  | EmptyString => false
  | String _ s' => contains sub s'
  end.

Definition matches_ci (sub s : string) : bool :=
  contains (toLowerCase sub) (toLowerCase s).

Section Execution.
Context {R : Runtime} {C : SqlConnector} {Db : Type} {D : Driver Db}.

(** The loop of [executeSQL] over [params]. *)
Definition sanitize (params : list value) : list value :=
  map (fun p => if instanceofInvalidParam p then VNull else p) params.

(** [processResult] *)
Definition processResult (reply : Reply) : M Db Result := fun w =>
  let result := {|
    res_rows := match reply_rows reply with Some rows => rows | None => [] end;
    res_count := reply_changes reply;
    res_lastID := reply_lastID reply |} in
  match reply_err reply with
  | Some message =>
      if matches_ci "UNIQUE constraint failed" message
      then (Failed (message ++ " (duplicate value)"), w)
      else (Failed message, w)
  | None => (Done result, w)
  end.

(** [executeWithConnection] *)
Definition executeWithConnection (sql : string) (params : list value)
           (client : nat) : M Db Result := fun w =>
  let stmtType := toLowerCase (trim sql) in
  let call := {|
    call_client := client;
    call_method := if startsWith "select" stmtType || startsWith "pragma" stmtType
                   then All else Run;
    call_sql := sql;
    call_params := params |} in
  let (reply, db') := exec call (db w) in
  processResult reply
    {| db := db'; _defaultConnection := _defaultConnection w;
       calls := (calls w ++ [call])%list |}.

(** [SQLite3.prototype.connect] *)
Definition connect : M Db nat := fun w =>
  match _defaultConnection w with
  | Some connection => (Done connection, w)
  | None =>
      match open (db w) with
      | (inl err, db') =>
          (Failed err, {| db := db'; _defaultConnection := None;
                          calls := calls w |})
      | (inr connection, db') =>
          (Done connection, {| db := db'; _defaultConnection := Some connection;
                               calls := calls w |})
      end
  end.

(** The branch of [executeSQL] that runs on the default connection.  When
    [connect] fails no default connection is set,
    [connection === self._defaultConnection] compares [undefined] with
    [undefined], and the [close] call throws. *)
Definition executeOnDefaultConnection (sql : string) (params : list value)
  : M Db Result := fun w =>
  match connect w with
  | (Done connection, w') => executeWithConnection sql params connection w'
  | (_, w') =>
      (Thrown "TypeError: Cannot read property 'close' of undefined", w')
  end.

(** [SQLite3.prototype.executeSQL] *)
Definition executeSQL (sql : string) (params : list value) (options : Options)
  : M Db Result :=
  let params := sanitize params in
  let transaction := lookup "transaction" options in
  match transaction with
  | Some {| tx_connection := Some connection; tx_connector_is_this := true |} =>
      executeWithConnection sql params connection
  | _ => executeOnDefaultConnection sql params
  end.

(** [SQLite3.prototype.createTable] *)
Definition createTable (model : string) (options : Options) : M Db unit :=
  let tableName := tableEscaped model in
  match buildColumnDefinitions model with
  | None => fun w => (Thrown "TypeError", w)
  | Some colDefs =>
      match colDefs with
      | VError msg => fun w => (Failed msg, w)
      | _ =>
          let stmts :=
            (fmt "CREATE TABLE %s (%s)" [tableName; ToString colDefs]
             :: _buildColumnIndexes model) in
          eachSeries stmts (fun stmt => _ <- executeSQL stmt [] options ;; ret tt)
      end
  end.

End Execution.

(** *** Pagination and result helpers *)

(** The [limit] and [offset] of a filter. *)
Record Filter : Type := {
  filter_limit : value;
  filter_offset : value
}.

Section Pagination.
Context {R : Runtime}.

(** [buildLimit]: the clause, and the filter as the function leaves it (a
    [limit] or [offset] that [isNaN] rejects is overwritten with [0]). *)
Definition buildLimit (filter : Filter) : string * Filter :=
  let filter :=
    if isNaN (filter_limit filter)
    then {| filter_limit := VNum 0%float; filter_offset := filter_offset filter |}
    else filter in
  let filter :=
    if isNaN (filter_offset filter)
    then {| filter_limit := filter_limit filter; filter_offset := VNum 0%float |}
    else filter in
  if negb (truthy (filter_limit filter)) && negb (truthy (filter_offset filter))
  then ("", filter)
  else
    let clause := [] in
    let clause :=
      if truthy (filter_limit filter)
      then (clause ++ [concat "LIMIT " (filter_limit filter)])%list else clause in
    let clause :=
      if truthy (filter_offset filter)
      then (clause ++ [concat "OFFSET " (filter_offset filter)])%list else clause in
    (join " " clause, filter).

(** [SQLite3.prototype.applyPagination]; [merge] is [ParameterizedSQL]'s. *)
Definition applyPagination {PSQL : Type} (merge : PSQL -> string -> PSQL)
           (model : string) (sql : PSQL) (filter : Filter) : PSQL * Filter :=
  let (limitClause, filter) := buildLimit filter in
  (if negb (String.eqb limitClause "") then merge sql limitClause else sql,
   filter).

End Pagination.

(** [SQLite3.prototype.getInsertedId]: [info.lastID]. *)
Definition getInsertedId (model : string) (info : Result) : value :=
  match res_lastID info with Some v => v | None => VUndefined end.

(** [SQLite3.prototype.getCountForAffectedRows]: [info && info.count]. *)
Definition getCountForAffectedRows (model : string) (info : option Result)
  : value :=
  match info with
  | None => VUndefined
  | Some i => match res_count i with Some v => v | None => VUndefined end
  end.

End Sqlite3.

(** ** Migration: [lib/migration.js] *)

Module Migration.
Import JS Sqlite3.

Definition with_db {Db : Type} (w : World Db) (db' : Db) : World Db :=
  {| db := db'; _defaultConnection := _defaultConnection w; calls := calls w |}.

Section Migration.
Context {R : Runtime} {C : SqlConnector} {Db : Type} {D : Driver Db}.

(** [lib/transaction.js] is not in the source tree; the two entry points
    [_alterTable] calls are parameters.  They talk to the connection they
    own, not to [executeSQL]. *)
Variable beginTransaction : string -> Db -> (string + nat) * Db.
Variable commit : nat -> Db -> option string * Db.

Definition do_beginTransaction (isolationLevel : string) : M Db nat := fun w =>
  match beginTransaction isolationLevel (db w) with
  | (inl err, db') => (Failed err, with_db w db')
  | (inr connection, db') => (Done connection, with_db w db')
  end.

Definition do_commit (connection : nat) : M Db unit := fun w =>
  match commit connection (db w) with
  | (Some err, db') => (Failed err, with_db w db')
  | (None, db') => (Done tt, with_db w db')
  end.

Definition exec_ (sql : string) (options : Options) : M Db unit :=
  _ <- executeSQL sql [] options ;; ret tt.

Definition renameOldTable (oldName newName : string) (txOptions : Options)
  : M Db unit :=
  exec_ (fmt "ALTER TABLE %s RENAME TO %s" [oldName; newName]) txOptions.

Definition copyRecords (model oldName newName : string) (txOptions : Options)
  : M Db unit :=
  let properties := properties (getModelDefinition model) in
  let properties := join "," (map (fun name => escape name) (map fst properties)) in
  exec_ (fmt "INSERT INTO %s SELECT %s FROM %s" [oldName; properties; newName])
        txOptions.

Definition dropOldTable (newName : string) (txOptions : Options) : M Db unit :=
  exec_ (fmt "DROP TABLE %s" [newName]) txOptions.

(** The statements the four steps of [_alterTable] give to [executeSQL]
    when the column definitions of the model are [colDefs], read off
    [renameOldTable], [createTable], [copyRecords] and [dropOldTable]:
    [createTable] names the table it creates by [tableEscaped], the other
    three by [escape]. *)
Definition alteration_run (model colDefs : string) : list string :=
  ([ fmt "ALTER TABLE %s RENAME TO %s"
         [escapeName (toLowerCase model);
          escapeName (toLowerCase (model ++ "_old"))] ]
   ++ fmt "CREATE TABLE %s (%s)" [tableEscaped model; colDefs]
      :: _buildColumnIndexes model
   ++ [ fmt "INSERT INTO %s SELECT %s FROM %s"
            [escapeName (toLowerCase model);
             join "," (map (fun name => escapeName (toLowerCase name))
                           (map fst (properties (getModelDefinition model))));
             escapeName (toLowerCase (model ++ "_old"))];
        fmt "DROP TABLE %s" [escapeName (toLowerCase (model ++ "_old"))] ])%list.


(** [SQLite3.prototype._alterTable] of [lib/migration.js].  The options
    object spells its key [transation]. *)
Definition _alterTable (model : string) : M Db unit :=
  connection <- do_beginTransaction "EXCLUSIVE" ;;
  let txOptions : Options :=
    [("transation", {| tx_connection := Some connection;
                       tx_connector_is_this := true |})] in
  let oldName := escape model in
  let newName := escape (model ++ "_old") in
  series [ renameOldTable oldName newName txOptions;
           createTable model txOptions;
           copyRecords model oldName newName txOptions;
           dropOldTable newName txOptions;
           do_commit connection ].

(** [SQLite3.prototype._alterTable] of the later revision of the file
    (src/unnamed/part_004), where [autoupdate] opens the transaction and
    commits or rolls back. *)
Definition _alterTable_in (model : string) (txOptions : Options) : M Db unit :=
  let oldName := escape model in
  let newName := escape (model ++ "_old") in
  series [ renameOldTable oldName newName txOptions;
           createTable model txOptions;
           copyRecords model oldName newName txOptions;
           dropOldTable newName txOptions ].

(** *** [autoupdate] *)

(** [model in self._models], and the [rollback] of [lib/transaction.js]. *)
Variable in_models : string -> bool.
Variable rollback : nat -> Db -> option string * Db.

(** The query [autoupdate] asks the catalog with. *)
Definition table_query (model : string) : string :=
  fmt ("SELECT name FROM sqlite_master WHERE TYPE="
       ++ String dquote ("table" ++ String dquote " AND name=%s"))
      [tableEscaped model].

(** One round of the [eachSeries] of [autoupdate] in [lib/migration.js].
    [executeSQL] and [createTable] are called without options. *)
Definition autoupdate_model (model : string) : M Db unit :=
  if negb (in_models model)
  then fun w => (Failed ("Model not found: " ++ model), w)
  else
    rows <- executeSQL (table_query model) [] [] ;;
    if (0 <? List.length (res_rows rows))%nat
    then _alterTable model
    else createTable model [].

(** [SQLite3.prototype.autoupdate] of [lib/migration.js], for an array of
    model names. *)
Definition autoupdate (models : list string) : M Db unit :=
  eachSeries models autoupdate_model.

(** What the later revision (src/unnamed/part_004) does for a model once the
    transaction is open: the catalog query, then the alteration or the
    creation, all with the transaction's options. *)
Definition autoupdate_in_work (model : string) (txOptions : Options)
  : M Db unit :=
  rows <- executeSQL (table_query model) [] txOptions ;;
  if (0 <? List.length (res_rows rows))%nat
  then _alterTable_in model txOptions
  else createTable model txOptions.

(** [checkAndCommit] of the later revision: a failure is rolled back and
    reported, whatever the rollback answers; otherwise the transaction is
    committed. *)
Definition checkAndCommit (connection : nat) (work : M Db unit) : M Db unit :=
  fun w =>
    match work w with
    | (Done _, w') => do_commit connection w'
    | (Failed err, w') =>
        (Failed err, with_db w' (snd (rollback connection (db w'))))
    | (Thrown exc, w') => (Thrown exc, w')
    end.

(** One round of the [eachSeries] of [autoupdate] in the later revision. *)
Definition autoupdate_in_model (model : string) : M Db unit :=
  if negb (in_models model)
  then fun w => (Failed ("Model not found: " ++ model), w)
  else
    connection <- do_beginTransaction "EXCLUSIVE" ;;
    let txOptions : Options :=
      [("transaction", {| tx_connection := Some connection;
                          tx_connector_is_this := true |})] in
    checkAndCommit connection (autoupdate_in_work model txOptions).

(** [SQLite3.prototype.autoupdate] of the later revision. *)
Definition autoupdate_in (models : list string) : M Db unit :=
  eachSeries models autoupdate_in_model.

End Migration.

End Migration.

(** ** The older variant of the connector (src/unnamed/part_002) *)

Module Legacy.
Import JS.

(** [prop.type] is compared with the constructors themselves. *)
Inductive PropType : Type :=
| TString | TNumber | TDate | TBoolean
| TOther (name : string).

Record Property : Type := {
  prop_type : PropType;
  prop_autoIncrement : value;
  prop_id : value
}.

(** What [toColumnValue] returns: a value, or a [ParameterizedSQL]. *)
Inductive ColumnValue : Type :=
| Plain (v : value)
| ParameterizedSQL (sql : string) (params : list value).

(** [escapeIdentifier] *)
Fixpoint escapeIdentifier_loop (str : string) : string :=
  match str with
  | EmptyString => String Sqlite3.dquote EmptyString
  | String c rest =>
      if Ascii.eqb c Sqlite3.dquote
      then String c (String c (escapeIdentifier_loop rest))
      else String c (escapeIdentifier_loop rest)
  end.

Definition escapeIdentifier (str : string) : string :=
  String Sqlite3.dquote (escapeIdentifier_loop str).

(** [SQLite3.prototype.escapeName] *)
Definition escapeName (name : string) : string :=
  if String.eqb name "" then name else escapeIdentifier name.

Section Coercion.
Context {R : Runtime}.

(** [d.toISOString()] of a date with the given time value; [None] when it
    throws.  [val.lat], [val.lng]. *)
Variable toISOString : float -> option string.
Variable getField : value -> string -> value.

(** The [Date] and [Timestamp] case of [toColumnValue]: a value without
    [toISOString] is wrapped in a [Date] first.  Of the values of the
    embedding only a [Date] has a [toISOString]. *)
Definition to_timestamp (val : value) : option ColumnValue :=
  let t := match val with VDate t => t | _ => DateTimeValue val end in
  match toISOString t with
  | None => None
  | Some iso =>
      Some (ParameterizedSQL "to_timestamp(?,'yyyy-mm-dd hh24:mi:ss.ms')"
                             [VStr iso])
  end.

(** [SQLite3.prototype.toColumnValue]; [None] when it throws. *)
Definition toColumnValue (prop : Property) (val : value) : option ColumnValue :=
  if eq_null val then
    if truthy (prop_autoIncrement prop) || truthy (prop_id prop)
    then Some (ParameterizedSQL "DEFAULT" [])
    else Some (Plain VNull)
  else
    match prop_type prop with
    | TString => Some (Plain (VStr (ToString val)))
    | TNumber => if isNaN val then Some (Plain val) else Some (Plain val)
    | TDate => to_timestamp val
    | TBoolean => Some (Plain (VBool (truthy val)))
    | TOther name =>
        if String.eqb name "Timestamp" then to_timestamp val
        else if String.eqb name "GeoPoint"
        then Some (ParameterizedSQL "point(?,?)"
                     [getField val "lat"; getField val "lng"])
        else Some (Plain val)
    end.

End Coercion.

(** The backslash character. *)
Definition backslash : ascii := "092"%char.

(** [escapeLiteral]: the loop, giving the text after the opening quote and
    whether a backslash was met. *)
Fixpoint escapeLiteral_loop (str : string) : string * bool :=
  match str with
  | EmptyString => ("'", false)
  | String c rest =>
      let (escaped, hasBackslash) := escapeLiteral_loop rest in
      if Ascii.eqb c "'" then (String c (String c escaped), hasBackslash)
      else if Ascii.eqb c backslash then (String c (String c escaped), true)
      else (String c escaped, hasBackslash)
  end.

Definition escapeLiteral (str : string) : string :=
  let (escaped, hasBackslash) := escapeLiteral_loop str in
  let escaped := String "'" escaped in
  if hasBackslash then " E" ++ escaped else escaped.

(** [SQLite3.prototype.escapeValue] *)
Definition escapeValue (v : value) : value :=
  match v with
  | VStr s => VStr (escapeLiteral s)
  | _ => v
  end.

(** [prop.type.name] *)
Definition type_name (t : PropType) : string :=
  match t with
  | TString => "String"
  | TNumber => "Number"
  | TDate => "Date"
  | TBoolean => "Boolean"
  | TOther name => name
  end.

(** [val.split(re).filter(Boolean)] where [re] matches runs of
    parentheses, white space and commas. *)
Definition is_point_separator (c : ascii) : bool :=
  Ascii.eqb c "(" || Ascii.eqb c ")" || Ascii.eqb c "," || is_space c.

Fixpoint point_tokens (s : string) (cur : string) : list string :=
  match s with
  | EmptyString => if String.eqb cur "" then [] else [rev_string cur ""]
  | String c rest =>
      if is_point_separator c
      then (if String.eqb cur "" then [] else [rev_string cur ""])
           ++ point_tokens rest ""
      else point_tokens rest (String c cur)
  end%list.

Section Reading.
Context {R : Runtime}.

(** [val.x] and the like; the object [{lat: a, lng: b}]. *)
Variable getField : value -> string -> value.
Variable makePoint : value -> value -> value.

(** [+point[i]] *)
Definition coordinate (point : list string) (i : nat) : value :=
  match nth_error point i with
  | Some s => VNum (StringToNumber s)
  | None => VNum nan
  end.

(** [SQLite3.prototype.fromColumnValue] *)
Definition fromColumnValue (prop : Property) (val : value) : value :=
  if eq_null val then val
  else
    let type := type_name (prop_type prop) in
    if String.eqb type "Boolean" then
      match val with
      | VBool _ => val
      | _ => VBool (strict_eq val (VStr "Y") || strict_eq val (VStr "y") ||
                    strict_eq val (VStr "T") || strict_eq val (VStr "t") ||
                    strict_eq val (VStr "1"))
      end
    else if String.eqb type "GeoPoint" || String.eqb type "Point" then
      match val with
      | VStr s =>
          let point := point_tokens s "" in
          makePoint (coordinate point 0) (coordinate point 1)
      | VError _ | VInvalidParam _ | VDate _ | VObject _ =>
          makePoint (getField val "x") (getField val "y")
      | _ => val
      end
    else val.

(** [SQLite3.prototype.mapToDB], for [data] that is given; [props] are the
    properties of the model. *)
Definition mapToDB (props : list (string * Property))
           (data : list (string * value)) : list (string * value) :=
  flat_map
    (fun entry : string * value =>
       let (p, v) := entry in
       match Sqlite3.lookup p props with
       | Some prop =>
           if String.eqb (type_name (prop_type prop)) "GeoPoint" && truthy v
           then [(p, VStr (concat (concat (concat "(" (getField v "lat") ++ ",")
                                          (getField v "lng")) (VStr ")")))]
           else [(p, v)]
       | None => []
       end)
    data.

(** [buildLimit] *)
Definition buildLimit (limit offset : value) : string :=
  let limit := if isNaN limit then VNum 0%float else limit in
  let offset := if isNaN offset then VNum 0%float else offset in
  if negb (truthy limit) && negb (truthy offset) then ""
  else
    let clause := [] in
    let clause :=
      if truthy limit then (clause ++ [concat "LIMIT " limit])%list else clause in
    let clause :=
      if truthy offset then (clause ++ [concat "OFFSET " offset])%list
      else clause in
    join " " clause.

(** [SQLite3.prototype.applyPagination] *)
Definition applyPagination (model sql : string) (limit offset : value) : string :=
  let limitClause := buildLimit limit offset in
  if negb (String.eqb limitClause "") then sql ++ " " ++ limitClause else sql.

End Reading.

End Legacy.

(** ** A small host, used to run the connector on concrete inputs

    [Number] reads decimal integers, numbers that are integers print in
    decimal, [moment] accepts calendar dates written [YYYY-MM-DD] (taken as
    UTC), and [JSON] knows the scalar literals.  Theorems are stated for
    every [Runtime]; this one only serves to evaluate them. *)

Module Sample.
Import JS Sqlite3.

Definition float_of_Z (z : Z) : float := PrimFloat.of_uint63 (Uint63.of_Z z).

Definition Z_of_float (f : float) : option Z :=
  match Prim2SF f with
  | S754_zero _ => Some 0%Z
  | S754_finite s m e =>
      let magnitude :=
        if (0 <=? e)%Z then Some (Z.pos m * 2 ^ e)%Z
        else if (Z.pos m mod 2 ^ (- e) =? 0)%Z then Some (Z.pos m / 2 ^ (- e))%Z
        else None in
      match magnitude with
      | Some z => Some (if s then (- z)%Z else z)
      | None => None
      end
  | _ => None
  end.

Definition digit (c : ascii) : option Z :=
  let n := nat_of_ascii c in
  if (48 <=? n)%nat && (n <=? 57)%nat then Some (Z.of_nat (n - 48)) else None.

Fixpoint digits_from (s : string) (acc : Z) : option Z :=
  match s with
  | EmptyString => Some acc
  | String c s' =>
      match digit c with
      | Some d => digits_from s' (10 * acc + d)%Z
      | None => None
      end
  end.

Definition digits (s : string) : option Z :=
  if String.eqb s "" then None else digits_from s 0%Z.

Definition string_to_number (s : string) : float :=
  let t := trim s in
  if String.eqb t "" then 0%float
  else match digits t with
       | Some z => float_of_Z z
       | None => nan
       end.

Definition number_to_string (f : float) : string :=
  match Z_of_float f with
  | Some z => DecimalString.NilZero.string_of_int (Z.to_int z)
  | None => if PrimFloat.is_nan f then "NaN" else "Infinity"
  end.

Definition leap (y : Z) : bool :=
  ((y mod 4 =? 0) && negb (y mod 100 =? 0) || (y mod 400 =? 0))%Z.

Definition days_in_month (y m : Z) : Z :=
  if (m =? 2)%Z then (if leap y then 29 else 28)%Z
  else if ((m =? 4) || (m =? 6) || (m =? 9) || (m =? 11))%Z then 30%Z
  else 31%Z.

Definition days_from_civil (y m d : Z) : Z :=
  let y' := (if m <=? 2 then y - 1 else y)%Z in
  let era := (y' / 400)%Z in
  let yoe := (y' - era * 400)%Z in
  let doy := ((153 * (m + (if 2 <? m then -3 else 9)) + 2) / 5 + d - 1)%Z in
  let doe := (yoe * 365 + yoe / 4 - yoe / 100 + doy)%Z in
  (era * 146097 + doe - 719468)%Z.

(** The seconds since the epoch of a date written [YYYY-MM-DD]. *)
Definition parse_date (s : string) : option Z :=
  match split_on "-" s "" with
  | [ys; ms; ds] =>
      match digits ys, digits ms, digits ds with
      | Some y, Some m, Some d =>
          if (String.length ys =? 4)%nat && (String.length ms =? 2)%nat &&
             (String.length ds =? 2)%nat &&
             ((1 <=? m) && (m <=? 12) && (1 <=? d) && (d <=? days_in_month y m))%Z
          then Some (days_from_civil y m d * 86400)%Z
          else None
      | _, _, _ => None
      end
  | _ => None
  end.

Definition moment_is_valid (s : string) : bool :=
  match parse_date s with Some _ => true | None => false end.

Definition moment_unix (s : string) : float :=
  match parse_date s with Some z => float_of_Z z | None => nan end.

Definition json_parse (v : value) : option value :=
  match v with
  | VNull => Some VNull
  | VBool b => Some (VBool b)
  | VNum n => if PrimFloat.is_nan n then None else Some (VNum n)
  | VStr s =>
      if String.eqb s "null" then Some VNull
      else if String.eqb s "true" then Some (VBool true)
      else if String.eqb s "false" then Some (VBool false)
      else match digits s with
           | Some z => Some (VNum (float_of_Z z))
           | None => None
           end
  | _ => None
  end.

Definition json_stringify (v : value) : value :=
  match v with
  | VUndefined => VUndefined
  | VNull => VStr "null"
  | VBool true => VStr "true"
  | VBool false => VStr "false"
  | VNum n => if PrimFloat.is_nan n then VStr "null" else VStr (number_to_string n)
  | VStr s => VStr (String dquote (s ++ String dquote EmptyString))
  | _ => VStr "{}"
  end.

Definition date_time_value (v : value) : float :=
  match v with
  | VNum n => n
  | VDate t => t
  | VStr s => PrimFloat.mul (moment_unix s) 1000%float
  | _ => nan
  end.

#[export] Instance runtime : Runtime := {|
  StringToNumber := string_to_number;
  NumberToString := number_to_string;
  DateToString := fun t => "Date " ++ number_to_string t;
  ObjectToString := fun _ => "[object Object]";
  ObjectToNumber := fun _ => nan;
  momentIsValid := moment_is_valid;
  momentUnix := moment_unix;
  JSONparse := json_parse;
  JSONstringify := json_stringify;
  DateTimeValue := date_time_value
|}.

(** A property with a type and nothing else. *)
Definition plain (type : string) : Property := {|
  prop_type := type; prop_id := VUndefined; prop_sqlite3 := None;
  prop_length := VUndefined; prop_limit := VUndefined; prop_index := VUndefined;
  prop_required := VUndefined; prop_nullable := VUndefined;
  prop_null := VUndefined; prop_allowNull := VUndefined |}.

(** An identifier property, [{type: Number, id: true}]. *)
Definition idProperty : Property := {|
  prop_type := "Number"; prop_id := VBool true; prop_sqlite3 := None;
  prop_length := VUndefined; prop_limit := VUndefined; prop_index := VUndefined;
  prop_required := VUndefined; prop_nullable := VUndefined;
  prop_null := VUndefined; prop_allowNull := VUndefined |}.

(** A model in the style of the migration tests. *)
Definition UserData : ModelDefinition := {|
  properties :=
    [ ("id", idProperty);
      ("email", {| prop_type := "String"; prop_id := VUndefined;
                   prop_sqlite3 := None; prop_length := VUndefined;
                   prop_limit := VUndefined; prop_index := VBool true;
                   prop_required := VUndefined; prop_nullable := VUndefined;
                   prop_null := VBool false; prop_allowNull := VUndefined |});
      ("birthDate", plain "Date");
      ("pendingPeriod", plain "Number");
      ("createdByAdmin", plain "Boolean") ];
  settings_indexes :=
    Some [("index0", {| idx_columns := Some "email, createdByAdmin";
                        idx_keys := None |})]
|}.

(** The inherited methods, as loopback-connector defines them for a model
    without a table or column name of its own. *)
#[export] Instance connector : SqlConnector := {|
  getModelDefinition := fun _ => UserData;
  tableEscaped := fun model => escapeName (dbName model);
  column := fun _ propertyName => dbName propertyName;
  columnMetadata := fun model propertyName =>
    match lookup propertyName (properties UserData) with
    | Some p => prop_sqlite3 p
    | None => None
    end;
  isNullable := fun prop =>
    if truthy (prop_required prop) || truthy (prop_id prop) then false
    else if truthy (prop_nullable prop) || truthy (prop_null prop)
            || truthy (prop_allowNull prop) then true
    else if strict_eq (prop_nullable prop) (VBool false)
            || strict_eq (prop_null prop) (VBool false)
            || strict_eq (prop_allowNull prop) (VBool false) then false
    else true
|}.

(** A driver that runs every statement and counts them. *)
#[export] Instance driver : Driver nat := {|
  open := fun n => (inr 1%nat, n);
  exec := fun _ n =>
    ({| reply_err := None; reply_rows := None;
        reply_changes := Some (VNum 0%float); reply_lastID := None |}, S n)
|}.

Definition beginTransaction (level : string) (n : nat) : (string + nat) * nat :=
  (inr 2%nat, n).

Definition commit (connection : nat) (n : nat) : option string * nat := (None, n).

(** Properties with a default that is not of their type. *)
Definition invalidDateDefault : Property := {|
  prop_type := "Date"; prop_id := VUndefined;
  prop_sqlite3 :=
    Some {| dataType := None; dataLength := VUndefined;
            dbDefault := VStr "not a date" |};
  prop_length := VUndefined; prop_limit := VUndefined;
  prop_index := VUndefined;
  prop_required := VUndefined; prop_nullable := VUndefined;
  prop_null := VUndefined; prop_allowNull := VUndefined |}.

Definition invalidBooleanDefault : Property := {|
  prop_type := "Boolean"; prop_id := VUndefined;
  prop_sqlite3 :=
    Some {| dataType := None; dataLength := VUndefined;
            dbDefault := VStr "yes" |};
  prop_length := VUndefined; prop_limit := VUndefined;
  prop_index := VUndefined;
  prop_required := VUndefined; prop_nullable := VUndefined;
  prop_null := VUndefined; prop_allowNull := VUndefined |}.

(** A Number property whose default is no number, a model that has it, and
    the inherited methods for that model. *)
Definition invalidNumberDefault : Property := {|
  prop_type := "Number"; prop_id := VUndefined;
  prop_sqlite3 :=
    Some {| dataType := None; dataLength := VUndefined;
            dbDefault := VStr "not-a-number" |};
  prop_length := VUndefined; prop_limit := VUndefined;
  prop_index := VUndefined;
  prop_required := VUndefined; prop_nullable := VUndefined;
  prop_null := VUndefined; prop_allowNull := VUndefined |}.

Definition PostWithInvalidDefault : ModelDefinition := {|
  properties := [ ("id", idProperty); ("title", plain "String");
                  ("defaultInt", invalidNumberDefault);
                  ("created", plain "Date") ];
  settings_indexes := None
|}.

Definition connector_of (definition : ModelDefinition) : SqlConnector := {|
  getModelDefinition := fun _ => definition;
  tableEscaped := fun model => escapeName (dbName model);
  column := fun _ propertyName => dbName propertyName;
  columnMetadata := fun model propertyName =>
    match lookup propertyName (properties definition) with
    | Some p => prop_sqlite3 p
    | None => None
    end;
  isNullable := @isNullable connector
|}.

(** A property with a type, the [sqlite3] settings given, and a [length]. *)
Definition with_meta (type : string) (meta : ColumnMeta) (length : value)
  : Property := {|
  prop_type := type; prop_id := VUndefined; prop_sqlite3 := Some meta;
  prop_length := length; prop_limit := VUndefined; prop_index := VUndefined;
  prop_required := VUndefined; prop_nullable := VUndefined;
  prop_null := VUndefined; prop_allowNull := VUndefined |}.

Definition Settings : ModelDefinition := {|
  properties :=
    [ ("approved",
       with_meta "Boolean" {| dataType := None; dataLength := VUndefined;
                              dbDefault := VStr "T" |} VUndefined);
      ("count",
       with_meta "Number" {| dataType := None; dataLength := VUndefined;
                             dbDefault := VNum 0%float |} VUndefined);
      ("name",
       with_meta "String" {| dataType := Some "varchar"; dataLength := VUndefined;
                             dbDefault := VUndefined |} (VNum 255%float));
      ("bio",
       with_meta "String" {| dataType := Some "longText"; dataLength := VUndefined;
                             dbDefault := VUndefined |} VUndefined) ];
  settings_indexes := None
|}.

(** A driver that refuses every INSERT as a duplicate and runs the rest. *)
Definition strict_driver : Driver nat := {|
  open := fun n => (inr 1%nat, n);
  exec := fun call n =>
    if startsWith "INSERT" (call_sql call)
    then ({| reply_err := Some "SQLITE_CONSTRAINT: UNIQUE constraint failed: t.id";
             reply_rows := None; reply_changes := None; reply_lastID := None |}, n)
    else ({| reply_err := None; reply_rows := None;
             reply_changes := Some (VNum 0%float); reply_lastID := None |}, S n)
|}.

(** A driver whose catalog has every table: a SELECT is answered with one
    row; an INSERT is refused as a duplicate; the rest runs. *)
Definition present_driver : Driver nat := {|
  open := fun n => (inr 1%nat, n);
  exec := fun call n =>
    if startsWith "SELECT" (call_sql call)
    then ({| reply_err := None; reply_rows := Some [[("name", VStr "userdata")]];
             reply_changes := None; reply_lastID := None |}, S n)
    else if startsWith "INSERT" (call_sql call)
    then ({| reply_err := Some "SQLITE_CONSTRAINT: UNIQUE constraint failed: t.id";
             reply_rows := None; reply_changes := None; reply_lastID := None |}, n)
    else ({| reply_err := None; reply_rows := None;
             reply_changes := Some (VNum 0%float); reply_lastID := None |}, S n)
|}.

(** A driver whose catalog has every table and that runs every statement:
    a SELECT is answered with one row. *)
Definition existing_driver : Driver nat := {|
  open := fun n => (inr 1%nat, n);
  exec := fun call n =>
    if startsWith "SELECT" (call_sql call)
    then ({| reply_err := None; reply_rows := Some [[("name", VStr "userdata")]];
             reply_changes := None; reply_lastID := None |}, S n)
    else ({| reply_err := None; reply_rows := None;
             reply_changes := Some (VNum 0%float); reply_lastID := None |}, S n)
|}.

(** The registry holds the sample model; a rollback that itself fails and
    resets the count of statements. *)
Definition in_models (model : string) : bool := String.eqb model "UserData".

Definition rollback (connection : nat) (n : nat) : option string * nat :=
  (Some "cannot rollback", 0%nat).

(** A heap of points with natural coordinates below 1000: the point with
    latitude [a] and longitude [b] is the object number [1000 * a + b]. *)
Definition getField (v : value) (field : string) : value :=
  match v with
  | VObject n =>
      if String.eqb field "lat" || String.eqb field "x"
      then VNum (float_of_Z (Z.of_nat n / 1000))
      else if String.eqb field "lng" || String.eqb field "y"
      then VNum (float_of_Z (Z.of_nat n mod 1000))
      else VUndefined
  | _ => VUndefined
  end.

Definition makePoint (lat lng : value) : value :=
  match lat, lng with
  | VNum a, VNum b =>
      match Z_of_float a, Z_of_float b with
      | Some x, Some y => VObject (Z.to_nat (1000 * x + y))
      | _, _ => VUndefined
      end
  | _, _ => VUndefined
  end.

Definition geoPoint : Legacy.Property := {|
  Legacy.prop_type := Legacy.TOther "GeoPoint";
  Legacy.prop_autoIncrement := VUndefined;
  Legacy.prop_id := VUndefined |}.

Definition approved : Legacy.Property := {|
  Legacy.prop_type := Legacy.TBoolean;
  Legacy.prop_autoIncrement := VUndefined;
  Legacy.prop_id := VUndefined |}.

(** Models whose [settings.indexes] has an entry without [columns] and
    [keys]: after an entry that names columns, and on its own. *)
Definition Indexed : ModelDefinition := {|
  properties := properties UserData;
  settings_indexes :=
    Some [ ("index0", {| idx_columns := Some "email, createdByAdmin";
                         idx_keys := None |});
           ("index1", {| idx_columns := None; idx_keys := None |}) ]
|}.

Definition Unresolved : ModelDefinition := {|
  properties := properties UserData;
  settings_indexes :=
    Some [ ("index1", {| idx_columns := None; idx_keys := None |}) ]
|}.

(** A driver whose database cannot be opened. *)
Definition closed_driver : Driver nat := {|
  open := fun n => (inl "SQLITE_CANTOPEN: unable to open database file", n);
  exec := @exec nat driver
|}.

(** A name between double quotes, to write expected SQL with. *)
Definition q (s : string) : string := String dquote (s ++ String dquote "").

Definition world0 : World nat :=
  {| db := 0%nat; _defaultConnection := None; calls := [] |}.

End Sample.

(** * Properties *)

Import JS.

(** ** Type and value coercion *)

Section CoercionProperties.
Import Sqlite3.
Context {R : Runtime}.

Lemma convertBoolean_true :
  Forall (fun v => _convertBoolean v = VNum 1%float) booleanTrue.
Proof. repeat constructor. Qed.

Lemma convertBoolean_false :
  Forall (fun v => _convertBoolean v = VNum 0%float) booleanFalse.
Proof. repeat constructor. Qed.

(** Outside the two lists [_convertBoolean] builds an [Error]. *)
Lemma convertBoolean_other (v : value) :
  includes booleanTrue v = false ->
  includes booleanFalse v = false ->
  _convertBoolean v = VError ("SQLITE3: Invalid boolean default: " ++ ToString v).
Proof.
  intros Ht Hf. unfold _convertBoolean. now rewrite Ht, Hf.
Qed.

(** C10. [fromColumnValue] hands a stored NULL back as it is, whatever the
    property descriptor and also when there is none: none of the
    conversions of the [switch] is applied to it. *)
Theorem fromColumnValue_null (property : option Property) :
  fromColumnValue property VNull = Some VNull.
Proof.
  unfold fromColumnValue. simpl. now destruct property.
Qed.

(** C8. For a Boolean property, writing any of [1], [true], ["T"], ["y"]
    with [toColumnValue] and reading the result with [fromColumnValue]
    gives [true]; writing any of [0], [false], ["F"], ["n"] gives [false]. *)
Theorem boolean_round_trip (p : Property) :
  prop_type p = "Boolean" ->
  Forall (fun v => fromColumnValue (Some p) (toColumnValue (Some p) v)
                   = Some (VBool true))
         [VNum 1%float; VBool true; VStr "T"; VStr "y"] /\
  Forall (fun v => fromColumnValue (Some p) (toColumnValue (Some p) v)
                   = Some (VBool false))
         [VNum 0%float; VBool false; VStr "F"; VStr "n"].
Proof.
  intros Hp.
  split; repeat constructor;
    unfold fromColumnValue, toColumnValue; rewrite Hp; reflexivity.
Qed.

(** What the [Date] case of [toColumnValue] does with a value that
    [isNaN] accepts as a number. *)
Lemma toColumnValue_Date_numeric (p : Property) (v : value) :
  prop_type p = "Date" ->
  eq_null v = false ->
  isNaN v = false ->
  toColumnValue (Some p) v = VNum (ToNumber v).
Proof.
  intros Hp Hnull Hnum. unfold toColumnValue.
  rewrite Hnull, Hp, Hnum. reflexivity.
Qed.

(** C2. What the [Date] case of [toColumnValue] does with a string that is
    not a number: the test on [isValid()] is negated, so a string that
    [moment] parses gives an [InvalidParam], and a string that it does not
    parse gives [unix() * 1000] of the invalid moment. *)
Theorem toColumnValue_Date_string (p : Property) (s : string) :
  prop_type p = "Date" ->
  isNaN (VStr s) = true ->
  toColumnValue (Some p) (VStr s) =
    if momentIsValid s
    then VInvalidParam ("SQLITE3: Invalid JSON: " ++ s)
    else VNum (PrimFloat.mul (momentUnix s) 1000%float).
Proof.
  intros Hp Hnan. unfold toColumnValue.
  rewrite Hp, Hnan. simpl. now destruct (momentIsValid s).
Qed.

(** In [lib/sqlite3.js] a null or absent value becomes NULL for every
    property descriptor, identifiers included, and when there is no
    descriptor. *)
Lemma toColumnValue_null (property : option Property) :
  toColumnValue property VNull = VNull /\
  toColumnValue property VUndefined = VNull.
Proof. split; reflexivity. Qed.

End CoercionProperties.

Section LegacyProperties.
Context {R : Runtime}.
Variable toISOString : float -> option string.
Variable getField : value -> string -> value.

(** The older variant answers a null or absent value with the [DEFAULT]
    marker when the property is an identifier or auto-incremented, and with
    NULL otherwise. *)
Lemma legacy_toColumnValue_null (prop : Legacy.Property) :
  let answer :=
    if truthy (Legacy.prop_autoIncrement prop) || truthy (Legacy.prop_id prop)
    then Some (Legacy.ParameterizedSQL "DEFAULT" [])
    else Some (Legacy.Plain VNull) in
  Legacy.toColumnValue toISOString getField prop VNull = answer /\
  Legacy.toColumnValue toISOString getField prop VUndefined = answer.
Proof. split; reflexivity. Qed.

(** C3. In [lib/sqlite3.js], [toColumnValue] maps a null or absent value to
    NULL for every property descriptor, identifier properties included,
    and when there is no descriptor; it has no use-default marker.  The
    marker is what the older variant of the connector returns, for a
    property whose [autoIncrement] or [id] is set. *)
Theorem toColumnValue_null_both_variants
        (property : option Sqlite3.Property) (prop : Legacy.Property) :
  (Sqlite3.toColumnValue property VNull = VNull /\
   Sqlite3.toColumnValue property VUndefined = VNull) /\
  (let answer :=
     if truthy (Legacy.prop_autoIncrement prop) || truthy (Legacy.prop_id prop)
     then Some (Legacy.ParameterizedSQL "DEFAULT" [])
     else Some (Legacy.Plain VNull) in
   Legacy.toColumnValue toISOString getField prop VNull = answer /\
   Legacy.toColumnValue toISOString getField prop VUndefined = answer).
Proof.
  split; [apply toColumnValue_null | apply legacy_toColumnValue_null].
Qed.

End LegacyProperties.

(** C3, as the specification states it, fails in [lib/sqlite3.js]: for a property that
    is an identifier, a null value gives NULL and no marker. *)
Lemma toColumnValue_null_identifier :
  truthy (Sqlite3.prop_id Sample.idProperty) = true /\
  @Sqlite3.toColumnValue Sample.runtime (Some Sample.idProperty) VNull = VNull /\
  @Sqlite3.toColumnValue Sample.runtime (Some Sample.idProperty) VUndefined
  = VNull.
Proof. repeat split. Qed.

Lemma toColumnValue_Date_string_witness :
  @Sqlite3.toColumnValue Sample.runtime (Some (Sample.plain "Date"))
     (VStr "2015-06-01")
  = VInvalidParam "SQLITE3: Invalid JSON: 2015-06-01".
Proof.
  exact (@toColumnValue_Date_string Sample.runtime (Sample.plain "Date")
           "2015-06-01" eq_refl eq_refl).
Defined.

Lemma boolean_round_trip_witness :
  @Sqlite3.fromColumnValue Sample.runtime (Some (Sample.plain "Boolean"))
     (@Sqlite3.toColumnValue Sample.runtime (Some (Sample.plain "Boolean"))
        (VStr "y"))
  = Some (VBool true).
Proof.
  pose proof (@boolean_round_trip Sample.runtime (Sample.plain "Boolean") eq_refl)
    as [Htrue _].
  rewrite Forall_forall in Htrue. apply Htrue. simpl. tauto.
Defined.

(** ** Identifier escaping *)

(** [escapeName] of [lib/sqlite3.js] puts a non-empty name between double
    quotes unchanged: the result of [replace] is dropped. *)
Lemma escapeName_keeps_name (c : ascii) (rest : string) :
  Sqlite3.escapeName (String c rest) =
    String Sqlite3.dquote (String c rest ++ String Sqlite3.dquote "").
Proof. reflexivity. Qed.

Lemma replace_quotes_length (s : string) :
  String.length s <= String.length (Sqlite3.replace_quotes s).
Proof.
  induction s as [|c rest IH]; simpl; [lia|].
  destruct (Ascii.eqb c Sqlite3.dquote); simpl; lia.
Qed.

Lemma replace_quotes_longer (pre post : string) :
  String.length (pre ++ String Sqlite3.dquote post)
  < String.length (Sqlite3.replace_quotes (pre ++ String Sqlite3.dquote post)).
Proof.
  induction pre as [|c rest IH]; simpl.
  - pose proof (replace_quotes_length post). lia.
  - destruct (Ascii.eqb c Sqlite3.dquote); simpl; lia.
Qed.

Lemma append_length (a b : string) :
  String.length (a ++ b) = String.length a + String.length b.
Proof. induction a as [|c rest IH]; simpl; [reflexivity | now rewrite IH]. Qed.

(** C4. For every name that holds a double quote, [escapeName] of
    [lib/sqlite3.js] returns the name between double quotes as it is, and
    this is not the name with its double quotes doubled between double
    quotes: the quote inside stays single. *)
Theorem escapeName_never_doubles (pre post : string) :
  let name := pre ++ String Sqlite3.dquote post in
  Sqlite3.escapeName name
  = String Sqlite3.dquote (name ++ String Sqlite3.dquote "") /\
  Sqlite3.escapeName name
  <> String Sqlite3.dquote
       (Sqlite3.replace_quotes name ++ String Sqlite3.dquote "").
Proof.
  intros name.
  assert (Hname : Sqlite3.escapeName name
                  = String Sqlite3.dquote (name ++ String Sqlite3.dquote "")).
  { subst name. destruct pre; reflexivity. }
  split; [exact Hname|].
  rewrite Hname. intros Heq.
  apply (f_equal String.length) in Heq. simpl in Heq.
  rewrite !append_length in Heq. simpl in Heq.
  pose proof (replace_quotes_longer pre post) as Hlt. fold name in Hlt. lia.
Qed.

(** On a name with a double quote between [a] and [b] the quote is not
    doubled. *)
Example escapeName_quote_inside :
  let q := Sqlite3.dquote in
  Sqlite3.escapeName (String "a" (String q "b")) =
    String q (String "a" (String q (String "b" (String q "")))).
Proof. reflexivity. Qed.

Lemma escapeIdentifier_loop_replace (str : string) :
  Legacy.escapeIdentifier_loop str =
    Sqlite3.replace_quotes str ++ String Sqlite3.dquote "".
Proof.
  induction str as [|c rest IH]; simpl; [reflexivity|].
  destruct (Ascii.eqb c Sqlite3.dquote) eqn:Hc; simpl; rewrite IH; try reflexivity.
  apply Ascii.eqb_eq in Hc. now subst c.
Qed.

(** The older variant does double them: its [escapeName] wraps what
    [replace] would have built. *)
Lemma legacy_escapeName_doubles (c : ascii) (rest : string) :
  Legacy.escapeName (String c rest) =
    String Sqlite3.dquote
      (Sqlite3.replace_quotes (String c rest) ++ String Sqlite3.dquote "").
Proof.
  unfold Legacy.escapeName, Legacy.escapeIdentifier.
  now rewrite escapeIdentifier_loop_replace.
Qed.

(** ** Column DDL *)

Section DDLProperties.
Import Sqlite3.
Context {R : Runtime}.

Lemma getDefaultClause_Date_now (p : Property) (meta : ColumnMeta) :
  prop_type p = "Date" ->
  prop_sqlite3 p = Some meta ->
  dbDefault meta = VStr "now" ->
  _getDefaultClause (Some p) =
    VStr " DEFAULT (CAST(STRFTIME('%s', 'now') AS INTEGER)*1000)".
Proof.
  intros Hp Hmeta Hv. unfold _getDefaultClause.
  rewrite Hmeta, Hv, Hp. reflexivity.
Qed.

Lemma getDefaultClause_Date_numeric (p : Property) (meta : ColumnMeta) :
  prop_type p = "Date" ->
  prop_sqlite3 p = Some meta ->
  truthy (dbDefault meta) = true ->
  strict_eq (dbDefault meta) (VStr "now") = false ->
  isNaN (dbDefault meta) = false ->
  _getDefaultClause (Some p) = VStr (" DEFAULT " ++ ToString (dbDefault meta)).
Proof.
  intros Hp Hmeta Ht Hnow Hnum. unfold _getDefaultClause.
  rewrite Hmeta, Ht, Hp, Hnow, Hnum. reflexivity.
Qed.

(** C5. What the [Date] case of [_getDefaultClause] does with a default
    that is a string, not ["now"] and not a number: the test on
    [isValid()] is negated, so a string that [moment] parses gives the
    error [Invalid date default] and no clause, and a string that it does
    not parse gives a [DEFAULT] clause holding [unix() * 1000] of the
    invalid moment. *)
Theorem getDefaultClause_Date_string
        (p : Property) (meta : ColumnMeta) (s : string) :
  prop_type p = "Date" ->
  prop_sqlite3 p = Some meta ->
  dbDefault meta = VStr s ->
  String.eqb s "" = false ->
  String.eqb s "now" = false ->
  isNaN (VStr s) = true ->
  _getDefaultClause (Some p) =
    if momentIsValid s
    then VError ("Invalid date default: " ++ s)
    else VStr (" DEFAULT " ++
               NumberToString (PrimFloat.mul (momentUnix s) 1000%float)).
Proof.
  intros Hp Hmeta Hv Hne Hnow Hnan. unfold _getDefaultClause.
  rewrite Hmeta, Hv, Hp. simpl. rewrite Hne, Hnow, Hnan. simpl.
  now destruct (momentIsValid s).
Qed.

(** For a Boolean property [_getDefaultClause] never answers with an
    [Error]: what [_convertBoolean] returns is appended to a string. *)
Lemma getDefaultClause_Boolean_no_error (p : Property) :
  prop_type p = "Boolean" ->
  instanceofError (_getDefaultClause (Some p)) = false.
Proof.
  intros Hp. unfold _getDefaultClause.
  destruct (prop_sqlite3 p) as [meta|]; [|reflexivity].
  destruct (truthy (dbDefault meta)); [|reflexivity].
  rewrite Hp. reflexivity.
Qed.

(** C6. For a Boolean property whose default is set and is none of the
    canonical forms, [_getDefaultClause] returns a string, the [DEFAULT]
    keyword followed by the text of the [Error] that [_convertBoolean]
    built, and not an [Error]. *)
Theorem getDefaultClause_Boolean_invalid (p : Property) (meta : ColumnMeta) :
  prop_type p = "Boolean" ->
  prop_sqlite3 p = Some meta ->
  truthy (dbDefault meta) = true ->
  includes booleanTrue (dbDefault meta) = false ->
  includes booleanFalse (dbDefault meta) = false ->
  _getDefaultClause (Some p) =
    VStr ("DEFAULT Error: SQLITE3: Invalid boolean default: "
          ++ ToString (dbDefault meta)).
Proof.
  intros Hp Hmeta Ht Htrue Hfalse. unfold _getDefaultClause.
  rewrite Hmeta, Ht, Hp. simpl.
  rewrite (convertBoolean_other _ Htrue Hfalse). reflexivity.
Qed.

(** The type [_buildColumnType] infers, by the table of the
    specification. *)
Lemma buildColumnType_table (p : Property) :
  (prop_type p = "Number" -> truthy (prop_id p) = true ->
     _buildColumnType p = "INTEGER") /\
  (prop_type p = "Number" -> truthy (prop_id p) = false ->
     _buildColumnType p = "REAL") /\
  (prop_type p = "Boolean" -> _buildColumnType p = "INTEGER") /\
  (prop_type p = "Date" -> _buildColumnType p = "INTEGER") /\
  (prop_type p <> "Number" -> prop_type p <> "Boolean" ->
   prop_type p <> "Date" -> _buildColumnType p = "TEXT").
Proof.
  unfold _buildColumnType.
  repeat split.
  - intros -> ->. reflexivity.
  - intros -> ->. reflexivity.
  - intros ->. reflexivity.
  - intros ->. reflexivity.
  - intros Hn Hb Hd.
    apply String.eqb_neq in Hn, Hb, Hd.
    rewrite Hn. unfold is_one_of at 1. simpl. rewrite Hb, Hd. simpl.
    match goal with |- (if ?b then _ else _) = _ => now destruct b end.
Qed.

End DDLProperties.

Section ColumnTypeProperties.
Import Sqlite3.
Context {R : Runtime} {C : SqlConnector}.

(** Without a [dataType] in the column metadata, [_columnDataType] is
    [_buildColumnType]. *)
Lemma columnDataType_no_override (model propertyName : string) (p : Property) :
  lookup propertyName (properties (getModelDefinition model)) = Some p ->
  match columnMetadata model propertyName with
  | Some m => dataType m
  | None => None
  end = None ->
  _columnDataType model propertyName = VStr (_buildColumnType p).
Proof.
  intros Hp Hmeta. unfold _columnDataType. rewrite Hp.
  destruct (columnMetadata model propertyName) as [m|]; [|reflexivity].
  rewrite Hmeta. reflexivity.
Qed.

(** C7. For a property of the model with no column type of its own in the
    column metadata, the column type is: INTEGER for a Number that is an
    identifier, REAL for any other Number, INTEGER for a Boolean and for a
    Date, and TEXT for every other type. *)
Theorem columnDataType_inferred (model propertyName : string) (p : Property) :
  lookup propertyName (properties (getModelDefinition model)) = Some p ->
  match columnMetadata model propertyName with
  | Some m => dataType m
  | None => None
  end = None ->
  (prop_type p = "Number" -> truthy (prop_id p) = true ->
     _columnDataType model propertyName = VStr "INTEGER") /\
  (prop_type p = "Number" -> truthy (prop_id p) = false ->
     _columnDataType model propertyName = VStr "REAL") /\
  (prop_type p = "Boolean" ->
     _columnDataType model propertyName = VStr "INTEGER") /\
  (prop_type p = "Date" ->
     _columnDataType model propertyName = VStr "INTEGER") /\
  (prop_type p <> "Number" -> prop_type p <> "Boolean" ->
   prop_type p <> "Date" ->
     _columnDataType model propertyName = VStr "TEXT").
Proof.
  intros Hp Hmeta.
  rewrite (columnDataType_no_override _ _ _ Hp Hmeta).
  destruct (buildColumnType_table p) as (H1 & H2 & H3 & H4 & H5).
  repeat split; intros; f_equal; auto.
Qed.

End ColumnTypeProperties.

Lemma columnDataType_inferred_witness :
  @Sqlite3._columnDataType Sample.runtime Sample.connector "UserData" "id" = VStr "INTEGER" /\
  @Sqlite3._columnDataType Sample.runtime Sample.connector "UserData" "pendingPeriod" = VStr "REAL".
Proof.
  split.
  - refine (proj1 (@columnDataType_inferred Sample.runtime Sample.connector
                     "UserData" "id" _ eq_refl eq_refl) eq_refl eq_refl).
  - refine (proj1 (proj2 (@columnDataType_inferred Sample.runtime Sample.connector
                     "UserData" "pendingPeriod" _ eq_refl eq_refl))
                  eq_refl eq_refl).
Defined.

Lemma getDefaultClause_Date_string_witness :
  @Sqlite3._getDefaultClause Sample.runtime (Some Sample.invalidDateDefault)
  = VStr " DEFAULT NaN".
Proof.
  exact (@getDefaultClause_Date_string Sample.runtime Sample.invalidDateDefault _
           "not a date" eq_refl eq_refl eq_refl eq_refl eq_refl eq_refl).
Defined.

Lemma getDefaultClause_Boolean_invalid_witness :
  @Sqlite3._getDefaultClause Sample.runtime (Some Sample.invalidBooleanDefault)
  = VStr "DEFAULT Error: SQLITE3: Invalid boolean default: yes".
Proof.
  exact (@getDefaultClause_Boolean_invalid Sample.runtime Sample.invalidBooleanDefault _
           eq_refl eq_refl eq_refl eq_refl eq_refl).
Defined.

(** ** Statement execution *)

Section ExecutionProperties.
Import Sqlite3.
Context {R : Runtime} {C : SqlConnector} {Db : Type} {D : Driver Db}.

Lemma sanitize_no_InvalidParam (params : list value) :
  Forall (fun v => instanceofInvalidParam v = false) (sanitize params).
Proof.
  unfold sanitize. induction params as [|v rest IH]; simpl; constructor; auto.
  now destruct v.
Qed.

Lemma processResult_world (reply : Reply) (w : World Db) :
  snd (processResult reply w) = w /\
  forall e, fst (processResult reply w) <> Thrown e.
Proof.
  unfold processResult.
  destruct (reply_err reply) as [message|]; simpl.
  - destruct (matches_ci _ message); simpl; split; congruence.
  - split; congruence.
Qed.

(** [executeWithConnection] hands exactly one statement to the driver. *)
Lemma executeWithConnection_calls
      (sql : string) (params : list value) (client : nat) (w : World Db) :
  exists call,
    calls (snd (executeWithConnection sql params client w))
    = (calls w ++ [call])%list /\
    call_client call = client /\
    call_sql call = sql /\ call_params call = params.
Proof.
  unfold executeWithConnection.
  destruct (exec _ (db w)) as [reply db'].
  rewrite (proj1 (processResult_world reply _)). simpl.
  eexists. split; [reflexivity|]. simpl. auto.
Qed.

Lemma connect_calls (w : World Db) :
  calls (snd (connect w)) = calls w.
Proof.
  unfold connect. destruct (_defaultConnection w); [reflexivity|].
  now destruct (open (db w)) as [[err|connection] db'].
Qed.

(** What [executeSQL] hands to the driver: one statement with the
    sanitized parameters, or nothing when no connection could be had. *)
Lemma executeSQL_calls
      (sql : string) (params : list value) (options : Options) (w : World Db) :
  (exists call,
     calls (snd (executeSQL sql params options w)) = (calls w ++ [call])%list /\
     call_sql call = sql /\ call_params call = sanitize params) \/
  (calls (snd (executeSQL sql params options w)) = calls w /\
   exists e, fst (executeSQL sql params options w) = Thrown e).
Proof.
  assert (Hwith : forall client w0,
    exists call,
      calls (snd (executeWithConnection sql (sanitize params) client w0))
      = (calls w0 ++ [call])%list /\
      call_sql call = sql /\ call_params call = sanitize params).
  { intros client w0.
    destruct (executeWithConnection_calls sql (sanitize params) client w0)
      as (call & H1 & _ & H2 & H3).
    now exists call. }
  assert (Hdefault :
    (exists call,
       calls (snd (executeOnDefaultConnection sql (sanitize params) w))
       = (calls w ++ [call])%list /\
       call_sql call = sql /\ call_params call = sanitize params) \/
    (calls (snd (executeOnDefaultConnection sql (sanitize params) w)) = calls w /\
     exists e, fst (executeOnDefaultConnection sql (sanitize params) w) = Thrown e)).
  { unfold executeOnDefaultConnection.
    pose proof (connect_calls w) as Hc.
    destruct (connect w) as [[connection|err|exc] w1]; simpl in Hc.
    - left. destruct (Hwith connection w1) as (call & H1 & H2).
      exists call. now rewrite H1, Hc.
    - right. simpl. split; [assumption|]. now eexists.
    - right. simpl. split; [assumption|]. now eexists. }
  unfold executeSQL.
  destruct (lookup "transaction" options) as [[[connection|] []]|];
    try exact Hdefault.
  left. apply Hwith.
Qed.

(** C9. Whatever parameter list [executeSQL] is given, every statement it
    hands to the driver is bound to that list with each [InvalidParam]
    replaced by NULL, so no bound list holds an [InvalidParam]. *)
Theorem executeSQL_binds_no_InvalidParam
        (sql : string) (params : list value) (options : Options) (w : World Db) :
  exists bound,
    calls (snd (executeSQL sql params options w)) = (calls w ++ bound)%list /\
    Forall (fun call =>
              call_params call =
                map (fun p => if instanceofInvalidParam p then VNull else p) params /\
              Forall (fun p => instanceofInvalidParam p = false)
                     (call_params call))
           bound.
Proof.
  destruct (executeSQL_calls sql params options w)
    as [(call & Hcalls & _ & Hparams) | (Hcalls & _)].
  - exists [call]. split; [assumption|].
    constructor; [|constructor]. split; [assumption|].
    rewrite Hparams. apply sanitize_no_InvalidParam.
  - exists []. split; [now rewrite app_nil_r | constructor].
Qed.

(** With a connection at hand the statement does reach the driver. *)
Lemma executeSQL_binds_on_default_connection
      (sql : string) (params : list value) (connection : nat) (w : World Db) :
  _defaultConnection w = Some connection ->
  exists call,
    calls (snd (executeSQL sql params [] w)) = (calls w ++ [call])%list /\
    call_client call = connection /\
    call_sql call = sql /\ call_params call = sanitize params.
Proof.
  intros Hc. unfold executeSQL, executeOnDefaultConnection. simpl.
  unfold connect. rewrite Hc.
  apply executeWithConnection_calls.
Qed.

End ExecutionProperties.

(** ** Migration *)

Section MigrationProperties.
Import Sqlite3 Migration.
Context {R : Runtime} {C : SqlConnector} {Db : Type} {D : Driver Db}.
Variable beginTransaction : string -> Db -> (string + nat) * Db.
Variable commit : nat -> Db -> option string * Db.

Lemma bind_Done {A B : Type} (m : M Db A) (k : A -> M Db B)
      (w w'' : World Db) (b : B) :
  bind m k w = (Done b, w'') ->
  exists a w', m w = (Done a, w') /\ k a w' = (Done b, w'').
Proof.
  unfold bind. destruct (m w) as [[a|e|e] w']; intros H; try discriminate.
  now exists a, w'.
Qed.

Ltac bind_inv H :=
  let a := fresh "a" in
  let w := fresh "w" in
  let H1 := fresh "Hstep" in
  apply bind_Done in H; destruct H as (a & w & H1 & H);
  try match type of a with unit => destruct a end.

Lemma exec_Done (sql : string) (options : Options) (w w' : World Db) :
  exec_ sql options w = (Done tt, w') ->
  statements w' = (statements w ++ [sql])%list.
Proof.
  unfold exec_. intros H. bind_inv H. unfold ret in H.
  injection H as <-.
  destruct (executeSQL_calls sql [] options w)
    as [(call & Hcalls & Hsql & _) | (_ & e & He)].
  - rewrite Hstep in Hcalls. simpl in Hcalls.
    unfold statements. rewrite Hcalls, map_app. simpl. now rewrite Hsql.
  - rewrite Hstep in He. discriminate.
Qed.

Lemma eachSeries_exec_Done (stmts : list string) (options : Options) :
  forall w w',
    eachSeries stmts (fun stmt => _ <- executeSQL stmt [] options ;; ret tt) w
    = (Done tt, w') ->
    statements w' = (statements w ++ stmts)%list.
Proof.
  induction stmts as [|stmt rest IH]; simpl; intros w w' H.
  - unfold ret in H. injection H as <-. now rewrite app_nil_r.
  - bind_inv H.
    apply (exec_Done stmt options) in Hstep.
    apply IH in H. rewrite H, Hstep, <- app_assoc. reflexivity.
Qed.

Lemma buildColumnDefinitions_loop_shape (model : string) (names : list string) :
  forall line v,
    buildColumnDefinitions_loop model names line = Some v ->
    (exists s, v = VStr s) \/ (exists msg, v = VError msg).
Proof.
  induction names as [|name rest IH]; simpl; intros line v H.
  - injection H as <-. left. now eexists.
  - destruct (_buildColumnDefinition model name) as [colDef|]; [|discriminate].
    destruct (instanceofError colDef) eqn:He.
    + injection H as <-. right. destruct colDef; try discriminate. now eexists.
    + eapply IH, H.
Qed.

(** When [createTable] ends well, the column definitions were built and
    the CREATE TABLE statement and the index statements were run, in this
    order. *)
Lemma createTable_Done (model : string) (options : Options) (w w' : World Db) :
  createTable model options w = (Done tt, w') ->
  exists colDefs,
    buildColumnDefinitions model = Some (VStr colDefs) /\
    statements w' = (statements w
               ++ fmt "CREATE TABLE %s (%s)" [tableEscaped model; colDefs]
                  :: _buildColumnIndexes model)%list.
Proof.
  unfold createTable. intros H.
  destruct (buildColumnDefinitions model) as [v|] eqn:Hv; [|discriminate].
  destruct (buildColumnDefinitions_loop_shape _ _ _ _ Hv) as [[s ->]|[msg ->]];
    [|discriminate].
  exists s. split; [reflexivity|].
  apply eachSeries_exec_Done in H. exact H.
Qed.

Lemma alter_steps_Done (model : string) (txOptions : Options)
      (rest : list (M Db unit)) (w w' : World Db) :
  series (renameOldTable (escape model) (escape (model ++ "_old")) txOptions
          :: createTable model txOptions
          :: copyRecords model (escape model) (escape (model ++ "_old")) txOptions
          :: dropOldTable (escape (model ++ "_old")) txOptions
          :: rest) w = (Done tt, w') ->
  exists colDefs w4,
    buildColumnDefinitions model = Some (VStr colDefs) /\
    statements w4 = (statements w ++ alteration_run model colDefs)%list /\
    series rest w4 = (Done tt, w').
Proof.
  unfold series. simpl. intros H.
  bind_inv H. apply exec_Done in Hstep.
  bind_inv H. apply createTable_Done in Hstep0.
  destruct Hstep0 as (colDefs & HcolDefs & Hcreate).
  bind_inv H. apply exec_Done in Hstep0.
  bind_inv H. apply exec_Done in Hstep1.
  exists colDefs, w3. split; [assumption|]. split; [|assumption].
  rewrite Hstep1, Hstep0, Hcreate, Hstep.
  unfold alteration_run, escape. simpl.
  repeat rewrite <- app_assoc. simpl. reflexivity.
Qed.

Lemma hands_over_ret {A : Type} (a : A) : hands_over (@ret Db A a) [].
Proof.
  intros w. exists []. simpl. rewrite app_nil_r.
  repeat split; auto. now exists [].
Qed.

Lemma hands_over_bind {A B : Type} (m : M Db A) (k : A -> M Db B)
      (p1 p2 : list string) :
  hands_over m p1 ->
  (forall a, hands_over (k a) p2) ->
  hands_over (bind m k) (p1 ++ p2)%list.
Proof.
  intros Hm Hk w. unfold bind.
  destruct (Hm w) as (l1 & Hl1 & (rest1 & Hrest1) & Hdone1).
  destruct (m w) as [[a|e|e] w1]; simpl in *.
  - destruct (Hk a w1) as (l2 & Hl2 & (rest2 & Hrest2) & Hdone2).
    exists (l1 ++ l2)%list. rewrite Hl2, Hl1, app_assoc.
    rewrite (Hdone1 eq_refl). repeat split.
    + exists rest2. now rewrite Hrest2, app_assoc.
    + intros Hd. now rewrite (Hdone2 Hd).
  - exists l1. repeat split; [assumption | | discriminate].
    exists (rest1 ++ p2)%list. now rewrite Hrest1, app_assoc.
  - exists l1. repeat split; [assumption | | discriminate].
    exists (rest1 ++ p2)%list. now rewrite Hrest1, app_assoc.
Qed.

Lemma hands_over_exec_ (sql : string) (options : Options) :
  hands_over (exec_ sql options) [sql].
Proof.
  intros w. unfold exec_, bind, ret.
  destruct (executeSQL_calls sql [] options w)
    as [(call & Hcalls & Hsql & _) | (Hcalls & e & He)];
    destruct (executeSQL sql [] options w) as [[r|e'|e'] w1]; simpl in *;
    try discriminate.
  - exists [sql]. unfold statements. rewrite Hcalls, map_app. simpl.
    rewrite Hsql. repeat split; auto. now exists [].
  - exists [sql]. unfold statements. rewrite Hcalls, map_app. simpl.
    rewrite Hsql. repeat split; auto. now exists [].
  - exists [sql]. unfold statements. rewrite Hcalls, map_app. simpl.
    rewrite Hsql. repeat split; auto. now exists [].
  - exists []. unfold statements. rewrite Hcalls, app_nil_r.
    repeat split; [now exists [sql] | discriminate].
Qed.

Lemma hands_over_eachSeries (stmts : list string) (options : Options) :
  hands_over
    (eachSeries stmts (fun stmt => _ <- executeSQL stmt [] options ;; ret tt))
    stmts.
Proof.
  induction stmts as [|stmt rest IH]; simpl.
  - apply hands_over_ret.
  - apply (hands_over_bind _ _ [stmt] rest); [apply hands_over_exec_ | auto].
Qed.

(** What [createTable] runs for a model: nothing when the column
    definitions cannot be built. *)
Lemma hands_over_createTable (model : string) (options : Options) :
  hands_over (createTable model options)
    match buildColumnDefinitions model with
    | Some (VStr colDefs) =>
        fmt "CREATE TABLE %s (%s)" [tableEscaped model; colDefs]
        :: _buildColumnIndexes model
    | _ => []
    end.
Proof.
  unfold createTable.
  destruct (buildColumnDefinitions model) as [v|] eqn:Hv.
  - destruct (buildColumnDefinitions_loop_shape _ _ _ _ Hv) as [[s ->]|[msg ->]].
    + apply hands_over_eachSeries.
    + intros w. exists []. simpl. rewrite app_nil_r.
      split; [reflexivity | split; [now exists [] | discriminate]].
  - intros w. exists []. simpl. rewrite app_nil_r.
    split; [reflexivity | split; [now exists [] | discriminate]].
Qed.

Lemma hands_over_beginTransaction (level : string) :
  hands_over (do_beginTransaction beginTransaction level) [].
Proof.
  intros w. unfold do_beginTransaction.
  destruct (beginTransaction level (db w)) as [[err|c] db']; simpl;
    exists []; rewrite app_nil_r; repeat split; auto; now exists [].
Qed.

Lemma hands_over_commit (connection : nat) :
  hands_over (do_commit commit connection) [].
Proof.
  intros w. unfold do_commit.
  destruct (commit connection (db w)) as [[err|] db']; simpl;
    exists []; rewrite app_nil_r; repeat split; auto; now exists [].
Qed.

(** Whether or not it ends well, [_alterTable] runs nothing but the
    statements of the alteration, from the first on and in their order: a
    failure only cuts the sequence short. *)
Lemma alterTable_runs_prefix (model : string) :
  hands_over (_alterTable beginTransaction commit model)
    (fmt "ALTER TABLE %s RENAME TO %s"
         [escapeName (toLowerCase model);
          escapeName (toLowerCase (model ++ "_old"))]
     :: match buildColumnDefinitions model with
        | Some (VStr colDefs) =>
            fmt "CREATE TABLE %s (%s)" [tableEscaped model; colDefs]
            :: _buildColumnIndexes model
        | _ => []
        end
     ++ [ fmt "INSERT INTO %s SELECT %s FROM %s"
              [escapeName (toLowerCase model);
               join "," (map (fun name => escapeName (toLowerCase name))
                             (map fst (properties (getModelDefinition model))));
               escapeName (toLowerCase (model ++ "_old"))];
          fmt "DROP TABLE %s" [escapeName (toLowerCase (model ++ "_old"))] ])%list.
Proof.
  unfold _alterTable.
  apply (hands_over_bind _ _ [] _); [apply hands_over_beginTransaction|].
  intros connection. unfold series. simpl.
  apply (hands_over_bind _ _ [_] _); [apply hands_over_exec_|]. intros _.
  apply hands_over_bind; [apply hands_over_createTable|]. intros _.
  apply (hands_over_bind _ _ [_] _); [apply hands_over_exec_|]. intros _.
  apply (hands_over_bind _ _ [_] _); [apply hands_over_exec_|]. intros _.
  apply (hands_over_bind _ _ [] _); [apply hands_over_commit|]. intros _.
  apply hands_over_ret.
Qed.

(** With a driver that runs every statement without error and a database
    that opens, [executeSQL] ends well, on the connection of a transaction
    as on the default one. *)
Lemma exec_succeeds (sql : string) (options : Options) (w : World Db) :
  (forall call d, reply_err (fst (exec call d)) = None) ->
  (forall d, exists c, fst (open d) = inr c) ->
  exists w1, exec_ sql options w = (Done tt, w1).
Proof.
  intros Hexec Hopen.
  assert (Hwith : forall params client w0,
    exists r w1, executeWithConnection sql params client w0 = (Done r, w1)).
  { intros params client w0. unfold executeWithConnection.
    match goal with |- context [exec ?c ?d] =>
      pose proof (Hexec c d) as He; destruct (exec c d) as [reply db'] end.
    simpl in He. unfold processResult. rewrite He. now eexists _, _. }
  unfold exec_, bind, executeSQL.
  assert (Hdefault : exists r w1,
    executeOnDefaultConnection sql (sanitize []) w = (Done r, w1)).
  { unfold executeOnDefaultConnection, connect.
    destruct (_defaultConnection w) as [c|]; [apply Hwith|].
    destruct (Hopen (db w)) as [c Hc].
    destruct (open (db w)) as [[err|c'] db']; simpl in Hc; [discriminate|].
    apply Hwith. }
  destruct (lookup "transaction" options) as [[[connection|] []]|];
    try (destruct Hdefault as (r & w1 & ->); now eexists).
  destruct (Hwith (sanitize []) connection w) as (r & w1 & ->).
  now eexists.
Qed.

Lemma eachSeries_exec_succeeds (stmts : list string) (options : Options) :
  (forall call d, reply_err (fst (exec call d)) = None) ->
  (forall d, exists c, fst (open d) = inr c) ->
  forall w,
    exists w1,
      eachSeries stmts (fun stmt => _ <- executeSQL stmt [] options ;; ret tt) w
      = (Done tt, w1).
Proof.
  intros Hexec Hopen.
  induction stmts as [|stmt rest IH]; intros w; simpl.
  - now eexists.
  - unfold bind at 1.
    destruct (exec_succeeds stmt options w Hexec Hopen) as (w1 & Hw1).
    unfold exec_ in Hw1. rewrite Hw1. apply IH.
Qed.

(** The four steps of the alteration end well with such a driver, for a
    model whose column definitions can be built; what follows them in the
    series is then run. *)
Lemma alter_steps_succeed (model colDefs : string) (txOptions : Options)
      (rest : list (M Db unit)) (w : World Db) :
  (forall call d, reply_err (fst (exec call d)) = None) ->
  (forall d, exists c, fst (open d) = inr c) ->
  buildColumnDefinitions model = Some (VStr colDefs) ->
  (forall w4, exists w', series rest w4 = (Done tt, w')) ->
  exists w',
    series (renameOldTable (escape model) (escape (model ++ "_old")) txOptions
            :: createTable model txOptions
            :: copyRecords model (escape model) (escape (model ++ "_old"))
                 txOptions
            :: dropOldTable (escape (model ++ "_old")) txOptions
            :: rest) w = (Done tt, w').
Proof.
  intros Hexec Hopen HcolDefs Hrest.
  unfold series. simpl. unfold renameOldTable, copyRecords, dropOldTable.
  unfold bind at 1.
  match goal with |- context [exec_ ?s ?o ?w0] =>
    destruct (exec_succeeds s o w0 Hexec Hopen) as (w1 & ->) end.
  unfold bind at 1. unfold createTable. rewrite HcolDefs.
  match goal with |- context [eachSeries ?l ?f ?w0] =>
    destruct (eachSeries_exec_succeeds l txOptions Hexec Hopen w0) as (w2 & ->)
  end.
  unfold bind at 1.
  match goal with |- context [exec_ ?s ?o ?w0] =>
    destruct (exec_succeeds s o w0 Hexec Hopen) as (w3 & ->) end.
  unfold bind at 1.
  match goal with |- context [exec_ ?s ?o ?w0] =>
    destruct (exec_succeeds s o w0 Hexec Hopen) as (w4 & ->) end.
  apply Hrest.
Qed.

(** The commit that ends the series of [lib/migration.js]. *)
Lemma commit_succeeds (connection : nat) (w : World Db) :
  (forall c d, fst (commit c d) = None) ->
  exists w', series [do_commit commit connection] w = (Done tt, w').
Proof.
  intros Hcommit. unfold series. simpl. unfold bind, do_commit.
  pose proof (Hcommit connection (db w)) as Hcm.
  destruct (commit connection (db w)) as [[err|] db']; simpl in Hcm;
    [discriminate|].
  now eexists.
Qed.

(** With a driver that runs every statement, a connection to be had, and a
    transaction that begins and commits, the alteration of a model whose
    column definitions can be built ends well. *)
Lemma alterTable_succeeds (model colDefs : string) (w : World Db) :
  (forall call d, reply_err (fst (exec call d)) = None) ->
  (forall d, exists c, fst (open d) = inr c) ->
  (forall d, exists c, fst (beginTransaction "EXCLUSIVE" d) = inr c) ->
  (forall c d, fst (commit c d) = None) ->
  buildColumnDefinitions model = Some (VStr colDefs) ->
  exists w', _alterTable beginTransaction commit model w = (Done tt, w').
Proof.
  intros Hexec Hopen Hbegin Hcommit HcolDefs.
  unfold _alterTable, bind at 1, do_beginTransaction.
  destruct (Hbegin (db w)) as [c Hc].
  destruct (beginTransaction "EXCLUSIVE" (db w)) as [[err|c'] db'];
    simpl in Hc; [discriminate|].
  apply (alter_steps_succeed model colDefs); auto.
  intros w4. now apply commit_succeeds.
Qed.

(** What the alteration has given to [executeSQL] when it ends well, in
    [lib/migration.js] and in the later revision. *)
Lemma alterTable_Done (model : string) (w w' : World Db) :
  _alterTable beginTransaction commit model w = (Done tt, w') ->
  exists colDefs,
    buildColumnDefinitions model = Some (VStr colDefs) /\
    statements w' = (statements w ++ alteration_run model colDefs)%list.
Proof.
  unfold _alterTable. intros H.
  apply bind_Done in H. destruct H as (connection & w0 & Hbegin & H).
  assert (Hw0 : statements w0 = statements w).
  { unfold do_beginTransaction in Hbegin.
    destruct (beginTransaction _ (db w)) as [[err|c] db']; [discriminate|].
    inversion Hbegin; subst. reflexivity. }
  apply alter_steps_Done in H.
  destruct H as (colDefs & w4 & HcolDefs & Hsqls & Hcommit).
  exists colDefs. split; [assumption|].
  unfold series in Hcommit. simpl in Hcommit.
  apply bind_Done in Hcommit. destruct Hcommit as ([] & w5 & Hcommit & Hret).
  unfold ret in Hret. injection Hret as <-.
  unfold do_commit in Hcommit.
  destruct (commit connection (db w4)) as [[err|] db']; [discriminate|].
  inversion Hcommit; subst.
  unfold statements in *. simpl. now rewrite Hsqls, Hw0.
Qed.

Lemma alterTable_in_Done (model : string) (txOptions : Options)
      (w w' : World Db) :
  _alterTable_in model txOptions w = (Done tt, w') ->
  exists colDefs,
    buildColumnDefinitions model = Some (VStr colDefs) /\
    statements w' = (statements w ++ alteration_run model colDefs)%list.
Proof.
  unfold _alterTable_in. intros H.
  apply alter_steps_Done in H.
  destruct H as (colDefs & w4 & HcolDefs & Hsqls & Hrest).
  exists colDefs. split; [assumption|].
  unfold series in Hrest. simpl in Hrest. unfold ret in Hrest.
  injection Hrest as <-. exact Hsqls.
Qed.



End MigrationProperties.


(** The statements of the alteration of the sample model. *)
Example alterTable_UserData :
  let q := Sample.q in
  Sqlite3.statements
    (snd (@Migration._alterTable Sample.runtime Sample.connector nat Sample.driver
            Sample.beginTransaction Sample.commit "UserData" Sample.world0))
  = [ "ALTER TABLE " ++ q "userdata" ++ " RENAME TO " ++ q "userdata_old";
      "CREATE TABLE " ++ q "userdata" ++ " ("
        ++ q "id" ++ " INTEGER NOT NULL PRIMARY KEY,"
        ++ q "email" ++ " TEXT NOT NULL,"
        ++ q "birthdate" ++ " INTEGER,"
        ++ q "pendingperiod" ++ " REAL,"
        ++ q "createdbyadmin" ++ " INTEGER)";
      "CREATE INDEX IF NOT EXISTS " ++ q "userdata_email" ++ " ON "
        ++ q "userdata" ++ " (" ++ q "email" ++ ")";
      "CREATE INDEX IF NOT EXISTS " ++ q "index0" ++ " ON "
        ++ q "userdata" ++ " (" ++ q "email" ++ "," ++ q "createdbyadmin" ++ ")";
      "INSERT INTO " ++ q "userdata" ++ " SELECT "
        ++ q "id" ++ "," ++ q "email" ++ "," ++ q "birthdate" ++ ","
        ++ q "pendingperiod" ++ "," ++ q "createdbyadmin"
        ++ " FROM " ++ q "userdata_old";
      "DROP TABLE " ++ q "userdata_old" ].
Proof. vm_compute. reflexivity. Qed.

(** * Further properties of the connector *)

Lemma append_assoc (a b c : string) : (a ++ b) ++ c = a ++ (b ++ c).
Proof. induction a as [|x a IH]; simpl; [reflexivity | now rewrite IH]. Qed.

Lemma append_nil_r (a : string) : a ++ "" = a.
Proof. induction a as [|x a IH]; simpl; [reflexivity | now rewrite IH]. Qed.

(** ** Column definitions and table creation *)

Section TableProperties.
Import Sqlite3.
Context {R : Runtime} {C : SqlConnector} {Db : Type} {D : Driver Db}.

Lemma lookup_In {A : Type} (name : string) (l : list (string * A)) :
  In name (map fst l) -> exists a, lookup name l = Some a.
Proof.
  induction l as [|[k v] rest IH]; simpl; [tauto|].
  intros [Hk | Hin].
  - subst k. rewrite String.eqb_refl. now eexists.
  - destruct (String.eqb k name); [now eexists | auto].
Qed.

(** A property whose default clause is an [Error] has that [Error] for its
    column definition. *)
Lemma buildColumnDefinition_error (model name : string) (msg : string) :
  _getDefaultClause (lookup name (properties (getModelDefinition model)))
  = VError msg ->
  _buildColumnDefinition model name = Some (VError msg).
Proof.
  intros H. unfold _buildColumnDefinition. now rewrite H.
Qed.

(** A property of the model whose default clause is no [Error] has a string
    for its column definition. *)
Lemma buildColumnDefinition_string (model name : string) (p : Property) :
  lookup name (properties (getModelDefinition model)) = Some p ->
  instanceofError (_getDefaultClause (Some p)) = false ->
  exists d, _buildColumnDefinition model name = Some (VStr d).
Proof.
  intros Hp He. unfold _buildColumnDefinition. rewrite Hp, He. now eexists.
Qed.

Lemma buildColumnDefinitions_loop_error
      (model : string) (pre : list string) (name : string) (post : list string)
      (msg : string) :
  (forall n, In n pre -> exists d, _buildColumnDefinition model n = Some (VStr d)) ->
  _buildColumnDefinition model name = Some (VError msg) ->
  forall line,
    buildColumnDefinitions_loop model (pre ++ name :: post)%list line
    = Some (VError msg).
Proof.
  intros Hpre Hname.
  induction pre as [|n pre IH]; simpl; intros line.
  - now rewrite Hname.
  - destruct (Hpre n (or_introl eq_refl)) as [d ->]. simpl.
    apply IH. intros n' Hn'. apply Hpre. now right.
Qed.

Lemma buildColumnDefinitions_loop_strings (model : string) (names : list string) :
  (forall n, In n names ->
             exists d, _buildColumnDefinition model n = Some (VStr d)) ->
  forall line,
    exists defs,
      Forall2 (fun n d => _buildColumnDefinition model n = Some (VStr d))
              names defs /\
      buildColumnDefinitions_loop model names line
      = Some (VStr (join "," (line ++ defs)%list)).
Proof.
  induction names as [|n names IH]; simpl; intros Hall line.
  - exists []. split; [constructor | now rewrite app_nil_r].
  - destruct (Hall n (or_introl eq_refl)) as [d Hd]. rewrite Hd. simpl.
    destruct (IH (fun n' Hn' => Hall n' (or_intror Hn')) (line ++ [d])%list)
      as (defs & Hdefs & Hloop).
    exists (d :: defs). split; [now constructor|].
    now rewrite Hloop, <- app_assoc.
Qed.

(** When no property of the model has an [Error] for its default clause,
    [buildColumnDefinitions] is the column definitions of all the
    properties, one for each and in their order, joined by commas. *)
Theorem buildColumnDefinitions_all (model : string) :
  (forall name p,
     lookup name (properties (getModelDefinition model)) = Some p ->
     instanceofError (_getDefaultClause (Some p)) = false) ->
  exists defs,
    Forall2 (fun name d => _buildColumnDefinition model name = Some (VStr d))
            (map fst (properties (getModelDefinition model))) defs /\
    buildColumnDefinitions model = Some (VStr (join "," defs)).
Proof.
  intros Hall. unfold buildColumnDefinitions.
  apply (buildColumnDefinitions_loop_strings model _) with (line := []).
  intros n Hn. destruct (lookup_In _ _ Hn) as [p Hp].
  apply (buildColumnDefinition_string _ _ p Hp). eapply Hall, Hp.
Qed.

(** [createTable] builds every column definition before it runs anything:
    when a property has an [Error] for its default clause, and the
    properties before it have none, [createTable] fails with that error and
    hands nothing to the driver. *)
Theorem createTable_invalid_default
        (model : string) (options : Options) (w : World Db)
        (pre : list string) (name : string) (post : list string)
        (p : Property) (msg : string) :
  map fst (properties (getModelDefinition model)) = (pre ++ name :: post)%list ->
  (forall n q, In n pre ->
     lookup n (properties (getModelDefinition model)) = Some q ->
     instanceofError (_getDefaultClause (Some q)) = false) ->
  lookup name (properties (getModelDefinition model)) = Some p ->
  _getDefaultClause (Some p) = VError msg ->
  createTable model options w = (Failed msg, w).
Proof.
  intros Hnames Hpre Hp Hmsg.
  assert (Hdefs : buildColumnDefinitions model = Some (VError msg)).
  { unfold buildColumnDefinitions. rewrite Hnames.
    apply buildColumnDefinitions_loop_error.
    - intros n Hn.
      assert (Hin : In n (map fst (properties (getModelDefinition model)))).
      { rewrite Hnames. apply in_or_app. now left. }
      destruct (lookup_In _ _ Hin) as [q Hq].
      apply (buildColumnDefinition_string _ _ q Hq). eapply Hpre; eauto.
    - apply buildColumnDefinition_error. now rewrite Hp. }
  unfold createTable. now rewrite Hdefs.
Qed.

End TableProperties.

Lemma buildColumnDefinitions_all_witness :
  exists defs,
    List.length defs = 5 /\
    @Sqlite3.buildColumnDefinitions Sample.runtime Sample.connector "UserData"
    = Some (VStr (join "," defs)).
Proof.
  destruct (@buildColumnDefinitions_all Sample.runtime Sample.connector "UserData")
    as (defs & Hdefs & Hall).
  - intros name p Hp. simpl in Hp.
    repeat match type of Hp with
           | (if ?b then _ else _) = _ => destruct b
           end;
      try discriminate; injection Hp as <-; reflexivity.
  - exists defs. split; [|exact Hall].
    apply Forall2_length in Hdefs. simpl in Hdefs. now rewrite <- Hdefs.
Defined.

Lemma createTable_invalid_default_witness :
  @Sqlite3.createTable Sample.runtime
     (Sample.connector_of Sample.PostWithInvalidDefault) nat Sample.driver
     "PostWithInvalidDefault" [] Sample.world0
  = (Sqlite3.Failed "Invalid numeric default: not-a-number", Sample.world0).
Proof.
  apply (@createTable_invalid_default Sample.runtime
           (Sample.connector_of Sample.PostWithInvalidDefault) nat Sample.driver
           "PostWithInvalidDefault" [] Sample.world0
           ["id"; "title"] "defaultInt" ["created"] Sample.invalidNumberDefault).
  - reflexivity.
  - intros n q [<- | [<- | []]] Hq; injection Hq as <-; reflexivity.
  - reflexivity.
  - reflexivity.
Defined.

Section ColumnProperties.
Import Sqlite3.
Context {R : Runtime} {C : SqlConnector}.

(** A default that is absent or falsy ([0], [false], the empty string,
    [NaN], [null]) gives no DEFAULT clause and no error, whatever the type
    of the property. *)
Theorem getDefaultClause_falsy_default (p : Property) :
  match prop_sqlite3 p with
  | Some meta => truthy (dbDefault meta)
  | None => false
  end = false ->
  _getDefaultClause (Some p) = VStr "".
Proof.
  unfold _getDefaultClause.
  destruct (prop_sqlite3 p) as [meta|]; [|reflexivity].
  now intros ->.
Qed.

(** The Boolean case of [_getDefaultClause] starts its clause with [DEFAULT]
    and not with a space, so in the column definition of a Boolean property
    with a valid default the keyword follows the column type with nothing
    between them. *)
Theorem buildColumnDefinition_Boolean_default
        (model name : string) (p : Property) (meta : ColumnMeta) (b : float) :
  lookup name (properties (getModelDefinition model)) = Some p ->
  prop_type p = "Boolean" ->
  prop_sqlite3 p = Some meta ->
  truthy (dbDefault meta) = true ->
  _convertBoolean (dbDefault meta) = VNum b ->
  match columnMetadata model name with
  | Some m => dataType m
  | None => None
  end = None ->
  _buildColumnDefinition model name =
    Some (VStr (String dquote (column model name ++ String dquote " ")
                ++ "INTEGERDEFAULT " ++ NumberToString b
                ++ (if isNullable p then "" else " NOT NULL")
                ++ (if truthy (prop_id p) then " PRIMARY KEY" else ""))).
Proof.
  intros Hp Htype Hmeta Htruthy Hbool Hoverride.
  assert (Hclause : _getDefaultClause (Some p)
                    = VStr ("DEFAULT " ++ NumberToString b)).
  { unfold _getDefaultClause. rewrite Hmeta, Htruthy, Htype. simpl.
    now rewrite Hbool. }
  assert (Hcol : _columnDataType model name = VStr "INTEGER").
  { unfold _columnDataType. rewrite Hp.
    unfold _buildColumnType. rewrite Htype. simpl.
    destruct (columnMetadata model name) as [m|]; [|reflexivity].
    now rewrite Hoverride. }
  unfold _buildColumnDefinition. rewrite Hp, Hclause, Hcol. simpl.
  unfold concat. simpl. f_equal. f_equal. f_equal.
  rewrite !append_assoc. reflexivity.
Qed.

(** A column type of its own: with a [dataType] in the column metadata and
    a length (the metadata's [dataLength], or else the property's [length]
    or [limit]) the column type is the upper-cased [dataType] followed by
    the length in parentheses; with a [dataType] and no length the
    [dataType] is ignored and the type is inferred. *)
Theorem columnDataType_override
        (model name : string) (p : Property) (m : ColumnMeta) (t : string) :
  lookup name (properties (getModelDefinition model)) = Some p ->
  columnMetadata model name = Some m ->
  dataType m = Some t ->
  String.eqb t "" = false ->
  let colLength :=
    or_else (or_else (dataLength m) (prop_length p)) (prop_limit p) in
  _columnDataType model name =
    if truthy colLength
    then VStr (toUpperCase t ++ "(" ++ ToString colLength ++ ")")
    else VStr (_buildColumnType p).
Proof.
  intros Hp Hm Ht Hne colLength. unfold _columnDataType.
  rewrite Hp, Hm, Ht, Hne. fold colLength.
  assert (Hupper : String.eqb (toUpperCase t) "" = false).
  { destruct t; [discriminate | reflexivity]. }
  rewrite Hupper. simpl.
  destruct (truthy colLength); [|reflexivity].
  unfold concat. now rewrite !append_assoc.
Qed.

End ColumnProperties.

Lemma getDefaultClause_falsy_default_witness :
  @Sqlite3._getDefaultClause Sample.runtime
     (Sqlite3.lookup "count" (Sqlite3.properties Sample.Settings))
  = VStr "".
Proof.
  apply (@getDefaultClause_falsy_default Sample.runtime). reflexivity.
Defined.

Lemma buildColumnDefinition_Boolean_default_witness :
  @Sqlite3._buildColumnDefinition Sample.runtime
     (Sample.connector_of Sample.Settings) "Settings" "approved"
  = Some (VStr (Sample.q "approved" ++ " INTEGERDEFAULT 1")).
Proof.
  refine (@buildColumnDefinition_Boolean_default Sample.runtime
            (Sample.connector_of Sample.Settings) "Settings" "approved"
            _ _ 1%float eq_refl eq_refl eq_refl eq_refl eq_refl eq_refl).
Defined.

Lemma columnDataType_override_witness :
  @Sqlite3._columnDataType Sample.runtime
     (Sample.connector_of Sample.Settings) "Settings" "name"
  = VStr "VARCHAR(255)" /\
  @Sqlite3._columnDataType Sample.runtime
     (Sample.connector_of Sample.Settings) "Settings" "bio"
  = VStr "TEXT".
Proof.
  split.
  - refine (@columnDataType_override Sample.runtime
              (Sample.connector_of Sample.Settings) "Settings" "name"
              _ _ "varchar" eq_refl eq_refl eq_refl eq_refl).
  - refine (@columnDataType_override Sample.runtime
              (Sample.connector_of Sample.Settings) "Settings" "bio"
              _ _ "longText" eq_refl eq_refl eq_refl eq_refl).
Defined.

(** ** Connections and results *)

Section ConnectionProperties.
Import Sqlite3.
Context {R : Runtime} {C : SqlConnector} {Db : Type} {D : Driver Db}.

(** The statement [executeWithConnection] makes of its arguments. *)
Let call_of (sql : string) (params : list value) (client : nat) : Call :=
  {| call_client := client;
     call_method := if startsWith "select" (toLowerCase (trim sql))
                       || startsWith "pragma" (toLowerCase (trim sql))
                    then All else Run;
     call_sql := sql;
     call_params := params |}.

Lemma executeWithConnection_reply
      (sql : string) (params : list value) (client : nat) (w : World Db) :
  executeWithConnection sql params client w =
    processResult (fst (exec (call_of sql params client) (db w)))
      {| db := snd (exec (call_of sql params client) (db w));
         _defaultConnection := _defaultConnection w;
         calls := (calls w ++ [call_of sql params client])%list |}.
Proof.
  unfold executeWithConnection. fold (call_of sql params client).
  now destruct (exec (call_of sql params client) (db w)).
Qed.

(** [executeSQL] either throws without running anything, or answers with
    what [processResult] makes of the driver's reply to one statement. *)
Lemma executeSQL_reply
      (sql : string) (params : list value) (options : Options) (w : World Db) :
  (exists exc, fst (executeSQL sql params options w) = Thrown exc) \/
  (exists client d w0,
     executeSQL sql params options w =
       processResult (fst (exec (call_of sql (sanitize params) client) d)) w0).
Proof.
  assert (Hdefault :
    (exists exc,
       fst (executeOnDefaultConnection sql (sanitize params) w) = Thrown exc) \/
    (exists client d w0,
       executeOnDefaultConnection sql (sanitize params) w =
         processResult (fst (exec (call_of sql (sanitize params) client) d)) w0)).
  { unfold executeOnDefaultConnection.
    destruct (connect w) as [[connection|err|exc] w1].
    - right. rewrite executeWithConnection_reply. now eexists _, _, _.
    - left. now eexists.
    - left. now eexists. }
  unfold executeSQL.
  destruct (lookup "transaction" options) as [[[connection|] []]|];
    try exact Hdefault.
  right. rewrite executeWithConnection_reply. now eexists _, _, _.
Qed.

(** An error [executeSQL] gives to its callback is the message of the
    driver's error for that statement, with [ (duplicate value)] appended
    when the message holds [UNIQUE constraint failed] in any case, and
    unchanged otherwise. *)
Theorem executeSQL_error
        (sql : string) (params : list value) (options : Options) (w : World Db)
        (err : string) :
  fst (executeSQL sql params options w) = Failed err ->
  exists call d message,
    call_sql call = sql /\
    reply_err (fst (exec call d)) = Some message /\
    err = if matches_ci "UNIQUE constraint failed" message
          then message ++ " (duplicate value)"
          else message.
Proof.
  intros H.
  destruct (executeSQL_reply sql params options w)
    as [[exc Hexc] | (client & d & w0 & Hreply)].
  - rewrite Hexc in H. discriminate.
  - rewrite Hreply in H. unfold processResult in H.
    exists (call_of sql (sanitize params) client), d.
    destruct (reply_err (fst (exec (call_of sql (sanitize params) client) d)))
      as [message|]; [|discriminate].
    exists message. split; [reflexivity|]. split; [reflexivity|].
    destruct (matches_ci "UNIQUE constraint failed" message); simpl in H;
      now injection H as <-.
Qed.

(** A result [executeSQL] gives to its callback carries the rows of the
    driver's reply (none when the reply has no rows), and
    [getCountForAffectedRows] and [getInsertedId] read the reply's [changes]
    and [lastID] off it. *)
Theorem executeSQL_result
        (sql : string) (params : list value) (options : Options) (w : World Db)
        (result : Result) (model : string) :
  fst (executeSQL sql params options w) = Done result ->
  exists call d,
    call_sql call = sql /\
    reply_err (fst (exec call d)) = None /\
    res_rows result = match reply_rows (fst (exec call d)) with
                      | Some rows => rows
                      | None => []
                      end /\
    getCountForAffectedRows model (Some result)
    = match reply_changes (fst (exec call d)) with
      | Some n => n
      | None => VUndefined
      end /\
    getInsertedId model result
    = match reply_lastID (fst (exec call d)) with
      | Some i => i
      | None => VUndefined
      end.
Proof.
  intros H.
  destruct (executeSQL_reply sql params options w)
    as [[exc Hexc] | (client & d & w0 & Hreply)].
  - rewrite Hexc in H. discriminate.
  - rewrite Hreply in H. unfold processResult in H.
    exists (call_of sql (sanitize params) client), d.
    destruct (reply_err (fst (exec (call_of sql (sanitize params) client) d)))
      as [message|].
    + destruct (matches_ci "UNIQUE constraint failed" message); discriminate.
    + simpl in H. injection H as <-. repeat split.
Qed.

(** [connect] opens the database once: when it ends well the connection it
    gives is the default connection from then on, and a second [connect]
    gives the same connection and changes nothing. *)
Theorem connect_caches (w w' : World Db) (connection : nat) :
  connect w = (Done connection, w') ->
  _defaultConnection w' = Some connection /\
  calls w' = calls w /\
  connect w' = (Done connection, w').
Proof.
  unfold connect at 1. intros H.
  assert (Hdefault : _defaultConnection w' = Some connection).
  { destruct (_defaultConnection w) as [c|] eqn:Hc.
    - now injection H as <- <-.
    - destruct (open (db w)) as [[err|c] db']; [discriminate|].
      now injection H as <- <-. }
  split; [assumption|]. split.
  - destruct (_defaultConnection w) as [c|].
    + now injection H as _ <-.
    + destruct (open (db w)) as [[err|c] db']; [discriminate|].
      now injection H as _ <-.
  - unfold connect. now rewrite Hdefault.
Qed.

(** Inside a transaction of this connector, [executeSQL] binds the
    statement to the transaction's connection; it neither opens the
    database nor touches the default connection. *)
Theorem executeSQL_in_transaction
        (sql : string) (params : list value) (options : Options)
        (connection : nat) (w : World Db) :
  lookup "transaction" options
  = Some {| tx_connection := Some connection; tx_connector_is_this := true |} ->
  exists call,
    calls (snd (executeSQL sql params options w)) = (calls w ++ [call])%list /\
    call_client call = connection /\
    call_sql call = sql /\
    _defaultConnection (snd (executeSQL sql params options w))
    = _defaultConnection w /\
    db (snd (executeSQL sql params options w)) = snd (exec call (db w)).
Proof.
  intros Htx. unfold executeSQL. rewrite Htx.
  rewrite executeWithConnection_reply.
  rewrite (proj1 (processResult_world _ _)). simpl.
  now exists (call_of sql (sanitize params) connection).
Qed.

(** When the database cannot be opened, [executeSQL] does not give the
    error to its callback: it throws, having run nothing. *)
Theorem executeSQL_cannot_open
        (sql : string) (params : list value) (options : Options) (w : World Db)
        (err : string) :
  lookup "transaction" options = None ->
  _defaultConnection w = None ->
  fst (open (db w)) = inl err ->
  (exists exc, fst (executeSQL sql params options w) = Thrown exc) /\
  calls (snd (executeSQL sql params options w)) = calls w /\
  _defaultConnection (snd (executeSQL sql params options w)) = None.
Proof.
  intros Htx Hnone Hopen. unfold executeSQL. rewrite Htx.
  unfold executeOnDefaultConnection, connect. rewrite Hnone.
  destruct (open (db w)) as [[e|c] db']; simpl in Hopen; [|discriminate].
  simpl. split; [now eexists | split; reflexivity].
Qed.

End ConnectionProperties.

Lemma executeSQL_error_witness :
  exists call d message,
    Sqlite3.call_sql call = "INSERT INTO t (id) VALUES (?)" /\
    Sqlite3.reply_err (fst (@Sqlite3.exec nat Sample.strict_driver call d))
    = Some message /\
    "SQLITE_CONSTRAINT: UNIQUE constraint failed: t.id (duplicate value)"
    = if Sqlite3.matches_ci "UNIQUE constraint failed" message
      then message ++ " (duplicate value)"
      else message.
Proof.
  exact (@executeSQL_error nat Sample.strict_driver
           "INSERT INTO t (id) VALUES (?)" [VNum 1%float] [] Sample.world0
           "SQLITE_CONSTRAINT: UNIQUE constraint failed: t.id (duplicate value)"
           eq_refl).
Defined.

Lemma executeSQL_result_witness :
  exists result,
    fst (@Sqlite3.executeSQL nat Sample.driver
           "UPDATE t SET a = ?" [VNum 1%float] [] Sample.world0)
    = Sqlite3.Done result /\
    Sqlite3.getCountForAffectedRows "t" (Some result) = VNum 0%float.
Proof.
  eexists. split; [reflexivity|].
  destruct (@executeSQL_result nat Sample.driver
              "UPDATE t SET a = ?" [VNum 1%float] [] Sample.world0 _ "t" eq_refl)
    as (call & d & _ & _ & _ & Hcount & _).
  exact Hcount.
Defined.

Lemma connect_caches_witness :
  Sqlite3._defaultConnection (snd (@Sqlite3.connect nat Sample.driver Sample.world0))
  = Some 1%nat.
Proof.
  exact (proj1 (@connect_caches nat Sample.driver Sample.world0 _ 1%nat eq_refl)).
Defined.

Lemma executeSQL_in_transaction_witness :
  exists call,
    Sqlite3.calls
      (snd (@Sqlite3.executeSQL nat Sample.driver "DROP TABLE t" []
              [("transaction", {| Sqlite3.tx_connection := Some 7%nat;
                                  Sqlite3.tx_connector_is_this := true |})]
              Sample.world0))
    = [call] /\ Sqlite3.call_client call = 7%nat.
Proof.
  destruct (@executeSQL_in_transaction nat Sample.driver "DROP TABLE t" []
              [("transaction", {| Sqlite3.tx_connection := Some 7%nat;
                                  Sqlite3.tx_connector_is_this := true |})]
              7%nat Sample.world0 eq_refl)
    as (call & Hcalls & Hclient & _).
  exists call. split; assumption.
Defined.

Lemma executeSQL_cannot_open_witness :
  exists exc,
    fst (@Sqlite3.executeSQL nat Sample.closed_driver "SELECT 1" [] []
           Sample.world0)
    = Sqlite3.Thrown exc.
Proof.
  exact (proj1 (@executeSQL_cannot_open nat Sample.closed_driver "SELECT 1" [] []
                  Sample.world0 _ eq_refl eq_refl eq_refl)).
Defined.

(** ** Which connection a migration runs on *)

Section MigrationConnections.
Import Sqlite3 Migration.
Context {R : Runtime} {C : SqlConnector} {Db : Type} {D : Driver Db}.
Variable beginTransaction : string -> Db -> (string + nat) * Db.
Variable commit : nat -> Db -> option string * Db.
Variable in_models : string -> bool.
Variable rollback : nat -> Db -> option string * Db.

(** [m] binds every statement it runs to the default connection, and keeps
    a default connection that is there. *)
Let on_default {A : Type} (m : M Db A) : Prop :=
  forall w,
    exists l,
      calls (snd (m w)) = (calls w ++ l)%list /\
      Forall (fun call =>
                _defaultConnection (snd (m w)) = Some (call_client call)) l /\
      (forall c, _defaultConnection w = Some c ->
                 _defaultConnection (snd (m w)) = Some c).

(** [m] binds every statement it runs to [connection], and leaves the
    default connection alone. *)
Let on_connection {A : Type} (connection : nat) (m : M Db A) : Prop :=
  forall w,
    exists l,
      calls (snd (m w)) = (calls w ++ l)%list /\
      Forall (fun call => call_client call = connection) l /\
      _defaultConnection (snd (m w)) = _defaultConnection w.

Lemma on_default_quiet {A : Type} (m : M Db A) :
  (forall w, calls (snd (m w)) = calls w /\
             _defaultConnection (snd (m w)) = _defaultConnection w) ->
  on_default m.
Proof.
  intros H w. destruct (H w) as [Hc Hd]. exists [].
  rewrite Hc, Hd, app_nil_r. repeat split; auto.
Qed.

Lemma on_connection_quiet {A : Type} (connection : nat) (m : M Db A) :
  (forall w, calls (snd (m w)) = calls w /\
             _defaultConnection (snd (m w)) = _defaultConnection w) ->
  on_connection connection m.
Proof.
  intros H w. destruct (H w) as [Hc Hd]. exists [].
  rewrite Hc, Hd, app_nil_r. repeat split; auto.
Qed.

Lemma on_default_bind {A B : Type} (m : M Db A) (k : A -> M Db B) :
  on_default m -> (forall a, on_default (k a)) -> on_default (bind m k).
Proof.
  intros Hm Hk w. unfold bind.
  destruct (Hm w) as (l1 & Hl1 & Hall1 & Hkeep1).
  destruct (m w) as [[a|e|e] w1]; simpl in *;
    try (exists l1; repeat split; assumption).
  destruct (Hk a w1) as (l2 & Hl2 & Hall2 & Hkeep2).
  exists (l1 ++ l2)%list. rewrite Hl2, Hl1, app_assoc. repeat split.
  - apply Forall_app. split; [|assumption].
    eapply Forall_impl; [|exact Hall1]. intros call Hcall. now apply Hkeep2.
  - intros c Hc. auto.
Qed.

Lemma on_connection_bind {A B : Type} (connection : nat)
      (m : M Db A) (k : A -> M Db B) :
  on_connection connection m ->
  (forall a, on_connection connection (k a)) ->
  on_connection connection (bind m k).
Proof.
  intros Hm Hk w. unfold bind.
  destruct (Hm w) as (l1 & Hl1 & Hall1 & Hkeep1).
  destruct (m w) as [[a|e|e] w1]; simpl in *;
    try (exists l1; repeat split; assumption).
  destruct (Hk a w1) as (l2 & Hl2 & Hall2 & Hkeep2).
  exists (l1 ++ l2)%list. rewrite Hl2, Hl1, app_assoc. repeat split.
  - apply Forall_app. now split.
  - congruence.
Qed.

Lemma processResult_snd (reply : Reply) (w : World Db) :
  snd (processResult reply w) = w.
Proof. apply processResult_world. Qed.

Lemma on_default_executeSQL
      (sql : string) (params : list value) (options : Options) :
  lookup "transaction" options = None ->
  on_default (executeSQL sql params options).
Proof.
  intros Htx w. unfold executeSQL. rewrite Htx.
  unfold executeOnDefaultConnection, connect.
  destruct (_defaultConnection w) as [c|] eqn:Hc.
  - unfold executeWithConnection.
    destruct (exec _ (db w)) as [reply db'].
    rewrite processResult_snd. simpl. eexists [_].
    split; [reflexivity|]. split.
    + constructor; [simpl; assumption | constructor].
    + intros c' Hc'. congruence.
  - destruct (open (db w)) as [[err|c] db'].
    + exists []. simpl. rewrite app_nil_r.
      split; [reflexivity|]. split; [constructor | discriminate].
    + unfold executeWithConnection. simpl.
      destruct (exec _ db') as [reply db''].
      rewrite processResult_snd. simpl. eexists [_].
      split; [reflexivity|]. split.
      * constructor; [reflexivity | constructor].
      * discriminate.
Qed.

Lemma on_connection_executeSQL
      (sql : string) (params : list value) (options : Options) (connection : nat) :
  lookup "transaction" options
  = Some {| tx_connection := Some connection; tx_connector_is_this := true |} ->
  on_connection connection (executeSQL sql params options).
Proof.
  intros Htx w. unfold executeSQL. rewrite Htx. unfold executeWithConnection.
  destruct (exec _ (db w)) as [reply db'].
  rewrite processResult_snd. simpl. eexists [_].
  split; [reflexivity|]. split; [|reflexivity].
  constructor; [reflexivity | constructor].
Qed.

Lemma on_default_ret {A : Type} (a : A) : on_default (@ret Db A a).
Proof. apply on_default_quiet. intros w. now split. Qed.

Lemma on_connection_ret {A : Type} (connection : nat) (a : A) :
  on_connection connection (@ret Db A a).
Proof. apply on_connection_quiet. intros w. now split. Qed.

Lemma on_default_eachSeries {A : Type} (items : list A) (f : A -> M Db unit) :
  (forall x, on_default (f x)) -> on_default (eachSeries items f).
Proof.
  intros Hf. induction items as [|x rest IH]; simpl.
  - apply on_default_ret.
  - apply on_default_bind; auto.
Qed.

Lemma on_connection_eachSeries {A : Type} (connection : nat)
      (items : list A) (f : A -> M Db unit) :
  (forall x, on_connection connection (f x)) ->
  on_connection connection (eachSeries items f).
Proof.
  intros Hf. induction items as [|x rest IH]; simpl.
  - apply on_connection_ret.
  - apply on_connection_bind; auto.
Qed.

Lemma on_default_exec_ (sql : string) (options : Options) :
  lookup "transaction" options = None -> on_default (exec_ sql options).
Proof.
  intros Htx. unfold exec_. apply on_default_bind.
  - now apply on_default_executeSQL.
  - intros _. apply on_default_ret.
Qed.

Lemma on_connection_exec_ (sql : string) (options : Options) (connection : nat) :
  lookup "transaction" options
  = Some {| tx_connection := Some connection; tx_connector_is_this := true |} ->
  on_connection connection (exec_ sql options).
Proof.
  intros Htx. unfold exec_. apply on_connection_bind.
  - now apply on_connection_executeSQL.
  - intros _. apply on_connection_ret.
Qed.

Lemma on_default_createTable (model : string) (options : Options) :
  lookup "transaction" options = None -> on_default (createTable model options).
Proof.
  intros Htx. unfold createTable.
  destruct (buildColumnDefinitions model) as [[]|];
    try (apply on_default_quiet; intros w; now split);
    apply on_default_eachSeries; intros stmt;
    apply (on_default_exec_ stmt options Htx).
Qed.

Lemma on_connection_createTable
      (model : string) (options : Options) (connection : nat) :
  lookup "transaction" options
  = Some {| tx_connection := Some connection; tx_connector_is_this := true |} ->
  on_connection connection (createTable model options).
Proof.
  intros Htx. unfold createTable.
  destruct (buildColumnDefinitions model) as [[]|];
    try (apply on_connection_quiet; intros w; now split);
    apply on_connection_eachSeries; intros stmt;
    apply (on_connection_exec_ stmt options connection Htx).
Qed.

Lemma do_beginTransaction_quiet (level : string) (w : World Db) :
  calls (snd (do_beginTransaction beginTransaction level w)) = calls w /\
  _defaultConnection (snd (do_beginTransaction beginTransaction level w))
  = _defaultConnection w.
Proof.
  unfold do_beginTransaction.
  now destruct (beginTransaction level (db w)) as [[err|c] db'].
Qed.

Lemma do_commit_quiet (connection : nat) (w : World Db) :
  calls (snd (do_commit commit connection w)) = calls w /\
  _defaultConnection (snd (do_commit commit connection w)) = _defaultConnection w.
Proof.
  unfold do_commit.
  now destruct (commit connection (db w)) as [[err|] db'].
Qed.

(** The options of [_alterTable] in [lib/migration.js] carry the transaction
    under the key [transation], which [executeSQL] does not read: every
    statement of the alteration is bound to the connector's default
    connection, whatever connection [beginTransaction] gave. *)
Theorem alterTable_runs_on_default_connection (model : string) (w : World Db) :
  exists l,
    calls (snd (_alterTable beginTransaction commit model w))
    = (calls w ++ l)%list /\
    Forall (fun call =>
              _defaultConnection (snd (_alterTable beginTransaction commit model w))
              = Some (call_client call)) l.
Proof.
  assert (H : on_default (_alterTable beginTransaction commit model)).
  { unfold _alterTable. apply on_default_bind.
    - apply on_default_quiet, do_beginTransaction_quiet.
    - intros connection. unfold series. simpl.
      unfold renameOldTable, copyRecords, dropOldTable.
      repeat (apply on_default_bind;
              [first [ now apply on_default_exec_
                     | now apply on_default_createTable
                     | apply on_default_quiet, do_commit_quiet ]
              | intros _ ]).
      apply on_default_ret. }
  destruct (H w) as (l & Hl & Hall & _). now exists l.
Qed.

Lemma on_connection_alterTable_in
      (model : string) (txOptions : Options) (connection : nat) :
  lookup "transaction" txOptions
  = Some {| tx_connection := Some connection; tx_connector_is_this := true |} ->
  on_connection connection (_alterTable_in model txOptions).
Proof.
  intros Htx. unfold _alterTable_in, series. simpl.
  unfold renameOldTable, copyRecords, dropOldTable.
  repeat (apply on_connection_bind;
          [first [ now apply on_connection_exec_
                 | now apply on_connection_createTable ]
          | intros _ ]).
  apply on_connection_ret.
Qed.

(** With options that carry a transaction of this connector under the key
    [transaction], as [autoupdate] of the later revision builds them, every
    statement of the alteration is bound to the transaction's connection and
    the default connection is left alone. *)
Theorem alterTable_in_runs_on_transaction
        (model : string) (txOptions : Options) (connection : nat) (w : World Db) :
  lookup "transaction" txOptions
  = Some {| tx_connection := Some connection; tx_connector_is_this := true |} ->
  exists l,
    calls (snd (_alterTable_in model txOptions w)) = (calls w ++ l)%list /\
    Forall (fun call => call_client call = connection) l /\
    _defaultConnection (snd (_alterTable_in model txOptions w))
    = _defaultConnection w.
Proof.
  intros Htx. now apply on_connection_alterTable_in.
Qed.

(** In the later revision every statement [autoupdate] runs for a model,
    the catalog query included, is bound to the connection that
    [beginTransaction] gave for that model. *)
Theorem autoupdate_in_runs_on_transaction (model : string) (w : World Db) :
  exists l,
    calls (snd (autoupdate_in_model beginTransaction commit in_models rollback
                  model w))
    = (calls w ++ l)%list /\
    _defaultConnection
      (snd (autoupdate_in_model beginTransaction commit in_models rollback model w))
    = _defaultConnection w /\
    forall connection,
      fst (beginTransaction "EXCLUSIVE" (db w)) = inr connection ->
      Forall (fun call => call_client call = connection) l.
Proof.
  unfold autoupdate_in_model.
  destruct (in_models model); simpl.
  2:{ exists []. rewrite app_nil_r. repeat split; auto. }
  unfold bind, do_beginTransaction.
  destruct (beginTransaction "EXCLUSIVE" (db w)) as [[err|c] db0]; simpl.
  { exists []. rewrite app_nil_r. repeat split; auto; discriminate. }
  set (txOptions := [("transaction", {| tx_connection := Some c;
                                        tx_connector_is_this := true |})]).
  assert (Hwork : on_connection c (autoupdate_in_work model txOptions)).
  { unfold autoupdate_in_work. apply on_connection_bind.
    - now apply on_connection_executeSQL.
    - intros rows. destruct (0 <? List.length (res_rows rows))%nat.
      + now apply on_connection_alterTable_in.
      + now apply on_connection_createTable. }
  unfold checkAndCommit.
  destruct (Hwork (with_db w db0)) as (l & Hl & Hall & Hkeep).
  destruct (autoupdate_in_work model txOptions (with_db w db0))
    as [[[]|err|exc] w1]; simpl in *; exists l.
  - destruct (do_commit_quiet c w1) as [Hc Hd]. rewrite Hc, Hd.
    repeat split; auto; intros c' Hc'; now injection Hc' as <-.
  - repeat split; auto; intros c' Hc'; now injection Hc' as <-.
  - repeat split; auto; intros c' Hc'; now injection Hc' as <-.
Qed.

End MigrationConnections.

Lemma alterTable_in_runs_on_transaction_witness :
  exists l,
    Sqlite3.calls
      (snd (@Migration._alterTable_in Sample.runtime Sample.connector nat
              Sample.driver "UserData"
              [("transaction", {| Sqlite3.tx_connection := Some 2%nat;
                                  Sqlite3.tx_connector_is_this := true |})]
              Sample.world0))
    = l /\
    Forall (fun call => Sqlite3.call_client call = 2%nat) l.
Proof.
  destruct (@alterTable_in_runs_on_transaction Sample.runtime Sample.connector nat
              Sample.driver "UserData"
              [("transaction", {| Sqlite3.tx_connection := Some 2%nat;
                                  Sqlite3.tx_connector_is_this := true |})]
              2%nat Sample.world0 eq_refl)
    as (l & Hl & Hall & _).
  exists l. split; assumption.
Defined.

(** The alteration of the sample model, in a transaction on connection 2,
    runs its six statements on the default connection 1. *)
Example alterTable_UserData_connection :
  map Sqlite3.call_client
    (Sqlite3.calls
       (snd (@Migration._alterTable Sample.runtime Sample.connector nat
               Sample.driver Sample.beginTransaction Sample.commit "UserData"
               Sample.world0)))
  = [1; 1; 1; 1; 1; 1]%nat.
Proof. vm_compute. reflexivity. Qed.

(** ** [autoupdate] *)

Section AutoupdateProperties.
Import Sqlite3 Migration.
Context {R : Runtime} {C : SqlConnector} {Db : Type} {D : Driver Db}.
Variable beginTransaction : string -> Db -> (string + nat) * Db.
Variable commit : nat -> Db -> option string * Db.
Variable in_models : string -> bool.
Variable rollback : nat -> Db -> option string * Db.

(** A model that is not in the registry ends [autoupdate] with
    [Model not found], before the catalog is asked and before a transaction
    is begun: the state is left as it was and the models after it are not
    looked at. *)
Theorem autoupdate_unknown_model (model : string) (rest : list string)
        (w : World Db) :
  in_models model = false ->
  autoupdate beginTransaction commit in_models (model :: rest) w
  = (Failed ("Model not found: " ++ model), w) /\
  autoupdate_in beginTransaction commit in_models rollback (model :: rest) w
  = (Failed ("Model not found: " ++ model), w).
Proof.
  intros H. unfold autoupdate, autoupdate_in. simpl. unfold bind.
  unfold autoupdate_model, autoupdate_in_model. now rewrite H.
Qed.

(** When [autoupdate] of [lib/migration.js] ends well for a model, it has
    run the catalog query for the model's table and then either the CREATE
    TABLE with its index statements, or the statements of the alteration;
    the column definitions come from the model definition in both cases. *)
Theorem autoupdate_model_statements (model : string) (w w' : World Db) :
  autoupdate_model beginTransaction commit in_models model w = (Done tt, w') ->
  exists colDefs,
    buildColumnDefinitions model = Some (VStr colDefs) /\
    (statements w' =
       (statements w ++
        table_query model
        :: fmt "CREATE TABLE %s (%s)" [tableEscaped model; colDefs]
        :: _buildColumnIndexes model)%list \/
     statements w' =
       (statements w ++
        table_query model :: alteration_run model colDefs)%list).
Proof.
  unfold autoupdate_model. destruct (in_models model); simpl; [|discriminate].
  intros H. apply bind_Done in H. destruct H as (rows & w1 & Hquery & H).
  assert (Hw1 : statements w1 = (statements w ++ [table_query model])%list).
  { apply (exec_Done (table_query model) []). unfold exec_, bind.
    now rewrite Hquery. }
  destruct (0 <? List.length (res_rows rows))%nat.
  - apply alterTable_Done in H. destruct H as (colDefs & HcolDefs & Hs).
    exists colDefs. split; [assumption|]. right.
    now rewrite Hs, Hw1, <- app_assoc.
  - apply createTable_Done in H. destruct H as (colDefs & HcolDefs & Hs).
    exists colDefs. split; [assumption|]. left.
    now rewrite Hs, Hw1, <- app_assoc.
Qed.

(** A round of [autoupdate], in either revision: the catalog query, then
    the alteration or the creation. *)
Lemma round_Done (model : string) (options : Options) (alter : M Db unit)
      (w w' : World Db) :
  (forall w1 w2, alter w1 = (Done tt, w2) ->
     exists colDefs,
       buildColumnDefinitions model = Some (VStr colDefs) /\
       statements w2 = (statements w1 ++ alteration_run model colDefs)%list) ->
  (rows <- executeSQL (table_query model) [] options ;;
   if (0 <? List.length (res_rows rows))%nat
   then alter
   else createTable model options) w = (Done tt, w') ->
  exists colDefs,
    buildColumnDefinitions model = Some (VStr colDefs) /\
    (statements w' =
       (statements w ++
        table_query model
        :: fmt "CREATE TABLE %s (%s)" [tableEscaped model; colDefs]
        :: _buildColumnIndexes model)%list \/
     statements w' =
       (statements w ++ table_query model :: alteration_run model colDefs)%list).
Proof.
  intros Halter H.
  apply bind_Done in H. destruct H as (rows & w1 & Hquery & H).
  assert (Hw1 : statements w1 = (statements w ++ [table_query model])%list).
  { apply (exec_Done (table_query model) options). unfold exec_, bind.
    now rewrite Hquery. }
  destruct (0 <? List.length (res_rows rows))%nat.
  - apply Halter in H. destruct H as (colDefs & HcolDefs & Hs).
    exists colDefs. split; [assumption|]. right.
    now rewrite Hs, Hw1, <- app_assoc.
  - apply createTable_Done in H. destruct H as (colDefs & HcolDefs & Hs).
    exists colDefs. split; [assumption|]. left.
    now rewrite Hs, Hw1, <- app_assoc.
Qed.

(** In the later revision the transaction is begun before the round and
    committed after it, and neither goes through [executeSQL]. *)
Lemma autoupdate_in_model_Done (model : string) (w w' : World Db) :
  autoupdate_in_model beginTransaction commit in_models rollback model w
  = (Done tt, w') ->
  exists connection w0 w1,
    let txOptions : Options :=
      [("transaction", {| tx_connection := Some connection;
                          tx_connector_is_this := true |})] in
    statements w0 = statements w /\
    autoupdate_in_work model txOptions w0 = (Done tt, w1) /\
    statements w' = statements w1.
Proof.
  unfold autoupdate_in_model. destruct (in_models model); simpl; [|discriminate].
  intros H. apply bind_Done in H. destruct H as (connection & w0 & Hbegin & H).
  assert (Hw0 : statements w0 = statements w).
  { unfold do_beginTransaction in Hbegin.
    destruct (beginTransaction _ (db w)) as [[err|c] db']; [discriminate|].
    inversion Hbegin; subst. reflexivity. }
  unfold checkAndCommit in H.
  destruct (autoupdate_in_work model _ w0) as [[[]|err|exc] w1] eqn:Hwork;
    try discriminate.
  exists connection, w0, w1. simpl. split; [assumption|].
  split; [assumption|].
  unfold do_commit in H.
  destruct (commit connection (db w1)) as [[err|] db']; [discriminate|].
  inversion H; subst. reflexivity.
Qed.

(** What a run of rounds has given to [executeSQL] when it ends well. *)
Lemma eachSeries_rounds (round : string -> M Db unit)
      (runs : string -> list string -> Prop) :
  (forall model w w',
     round model w = (Done tt, w') ->
     exists stmts,
       runs model stmts /\ statements w' = (statements w ++ stmts)%list) ->
  forall models w w',
    eachSeries models round w = (Done tt, w') ->
    exists rounds,
      Forall2 runs models rounds /\
      statements w' = (statements w ++ List.concat rounds)%list.
Proof.
  intros Hround.
  induction models as [|model rest IH]; simpl; intros w w' H.
  - unfold ret in H. injection H as <-. exists []. split; [constructor|].
    simpl. now rewrite app_nil_r.
  - apply bind_Done in H. destruct H as ([] & w1 & Hfirst & Hrest).
    apply Hround in Hfirst. destruct Hfirst as (stmts & Hruns & Hs).
    apply IH in Hrest. destruct Hrest as (rounds & Hall & Hs').
    exists (stmts :: rounds). split; [now constructor|].
    simpl. now rewrite Hs', Hs, <- app_assoc.
Qed.

(** When [autoupdate] ends well for a list of models, every model of the
    list is in the registry, and the statements run are, model after model
    in the order of the list, the catalog query for the model followed
    either by the CREATE TABLE with its index statements or by the
    statements of the alteration: nothing else is run, no model is left
    out or taken twice, and the statements of two models do not mix.  This
    holds for [lib/migration.js] and for the later revision. *)
Theorem autoupdate_statements (models : list string) (w w' : World Db) :
  autoupdate beginTransaction commit in_models models w = (Done tt, w') \/
  autoupdate_in beginTransaction commit in_models rollback models w
  = (Done tt, w') ->
  exists rounds,
    Forall2
      (fun model stmts =>
         in_models model = true /\
         exists colDefs,
           buildColumnDefinitions model = Some (VStr colDefs) /\
           (stmts =
              table_query model
              :: fmt "CREATE TABLE %s (%s)" [tableEscaped model; colDefs]
              :: _buildColumnIndexes model \/
            stmts = table_query model :: alteration_run model colDefs))
      models rounds /\
    statements w' = (statements w ++ List.concat rounds)%list.
Proof.
  intros [H|H]; revert H; apply eachSeries_rounds; clear w w';
    intros model w w' H.
  - assert (Hin : in_models model = true).
    { unfold autoupdate_model in H. now destruct (in_models model). }
    unfold autoupdate_model in H. rewrite Hin in H. simpl in H.
    apply round_Done in H; [|apply alterTable_Done].
    destruct H as (colDefs & HcolDefs & [Hs|Hs]); eexists;
      (split; [split; [exact Hin | exists colDefs; split; [exact HcolDefs|]]
              | exact Hs]); auto.
  - assert (Hin : in_models model = true).
    { unfold autoupdate_in_model in H. now destruct (in_models model). }
    apply autoupdate_in_model_Done in H.
    destruct H as (connection & w0 & w1 & Hw0 & Hwork & Hw').
    unfold autoupdate_in_work in Hwork.
    apply round_Done in Hwork; [|apply alterTable_in_Done].
    rewrite Hw'. rewrite <- Hw0.
    destruct Hwork as (colDefs & HcolDefs & [Hs|Hs]); eexists;
      (split; [split; [exact Hin | exists colDefs; split; [exact HcolDefs|]]
              | exact Hs]); auto.
Qed.

(** In the later revision the work for a model ends in a commit or in a
    rollback: when the catalog query, the creation or the alteration fails,
    the transaction is rolled back and [autoupdate] reports that failure,
    whatever the rollback answers; when they end well the transaction is
    committed and [autoupdate] reports what the commit answers.  No
    statement is run after the failure. *)
Theorem autoupdate_in_commit_or_rollback
        (model : string) (w : World Db) (connection : nat) (db0 : Db) :
  in_models model = true ->
  beginTransaction "EXCLUSIVE" (db w) = (inr connection, db0) ->
  let txOptions : Options :=
    [("transaction", {| tx_connection := Some connection;
                        tx_connector_is_this := true |})] in
  let work := autoupdate_in_work model txOptions (with_db w db0) in
  let result :=
    autoupdate_in_model beginTransaction commit in_models rollback model w in
  (forall err, fst work = Failed err ->
     fst result = Failed err /\
     calls (snd result) = calls (snd work) /\
     db (snd result) = snd (rollback connection (db (snd work)))) /\
  (is_Done (fst work) = true ->
     fst result = match fst (commit connection (db (snd work))) with
                  | Some err => Failed err
                  | None => Done tt
                  end /\
     calls (snd result) = calls (snd work) /\
     db (snd result) = snd (commit connection (db (snd work)))).
Proof.
  intros Hin Hbegin txOptions work result.
  assert (Hresult : result = checkAndCommit commit rollback connection
                               (autoupdate_in_work model txOptions)
                               (with_db w db0)).
  { unfold result, autoupdate_in_model. rewrite Hin. simpl.
    unfold bind, do_beginTransaction. now rewrite Hbegin. }
  rewrite Hresult. unfold checkAndCommit. fold work.
  destruct work as [[[]|err|exc] w1]; simpl; split.
  - discriminate.
  - intros _. unfold do_commit.
    destruct (commit connection (db w1)) as [[err|] db']; simpl; auto.
  - intros err' Herr. injection Herr as <-. simpl. auto.
  - discriminate.
  - discriminate.
  - discriminate.
Qed.

(** In [lib/migration.js] a failure inside the alteration is not rolled
    back: when the column definitions of the model cannot be built,
    [_alterTable] reports that error once the rename has run, and the state
    is the one the rename left. *)
Theorem alterTable_invalid_definition
        (model msg : string) (w w1 : World Db) (connection : nat) (db0 : Db)
        (renamed : Result) :
  buildColumnDefinitions model = Some (VError msg) ->
  beginTransaction "EXCLUSIVE" (db w) = (inr connection, db0) ->
  executeSQL
    (fmt "ALTER TABLE %s RENAME TO %s"
         [escapeName (toLowerCase model);
          escapeName (toLowerCase (model ++ "_old"))]) []
    [("transation", {| tx_connection := Some connection;
                       tx_connector_is_this := true |})]
    (with_db w db0) = (Done renamed, w1) ->
  _alterTable beginTransaction commit model w = (Failed msg, w1).
Proof.
  intros HcolDefs Hbegin Hrename.
  unfold _alterTable, bind at 1, do_beginTransaction. rewrite Hbegin.
  unfold series. simpl. unfold bind at 1.
  unfold renameOldTable, exec_, bind at 1, escape. rewrite Hrename.
  unfold ret. unfold bind at 1, createTable. now rewrite HcolDefs.
Qed.

End AutoupdateProperties.

Lemma autoupdate_unknown_model_witness :
  @Migration.autoupdate Sample.runtime Sample.connector nat Sample.driver
     Sample.beginTransaction Sample.commit Sample.in_models
     ["XYZ"; "UserData"] Sample.world0
  = (Sqlite3.Failed "Model not found: XYZ", Sample.world0).
Proof.
  exact (proj1 (@autoupdate_unknown_model Sample.runtime Sample.connector nat
                  Sample.driver Sample.beginTransaction Sample.commit
                  Sample.in_models Sample.rollback "XYZ" ["UserData"]
                  Sample.world0 eq_refl)).
Defined.

Lemma autoupdate_model_statements_witness :
  exists colDefs,
    @Sqlite3.buildColumnDefinitions Sample.runtime Sample.connector "UserData"
    = Some (VStr colDefs) /\
    (Sqlite3.statements
       (snd (@Migration.autoupdate_model Sample.runtime Sample.connector nat
               Sample.driver Sample.beginTransaction Sample.commit
               Sample.in_models "UserData" Sample.world0))
     = @Migration.table_query Sample.connector "UserData"
       :: fmt "CREATE TABLE %s (%s)"
              [@Sqlite3.tableEscaped Sample.connector "UserData"; colDefs]
       :: @Sqlite3._buildColumnIndexes Sample.connector "UserData" \/
     Sqlite3.statements
       (snd (@Migration.autoupdate_model Sample.runtime Sample.connector nat
               Sample.driver Sample.beginTransaction Sample.commit
               Sample.in_models "UserData" Sample.world0))
     = @Migration.table_query Sample.connector "UserData"
       :: @Migration.alteration_run Sample.connector "UserData" colDefs).
Proof.
  refine (@autoupdate_model_statements Sample.runtime Sample.connector nat
            Sample.driver Sample.beginTransaction Sample.commit
            Sample.in_models "UserData" Sample.world0
            (snd (@Migration.autoupdate_model Sample.runtime Sample.connector nat
                    Sample.driver Sample.beginTransaction Sample.commit
                    Sample.in_models "UserData" Sample.world0)) _).
  vm_compute. reflexivity.
Defined.

Lemma autoupdate_statements_witness :
  let created :=
    @Migration.autoupdate Sample.runtime Sample.connector nat Sample.driver
       Sample.beginTransaction Sample.commit Sample.in_models
       ["UserData"; "UserData"] Sample.world0 in
  let altered :=
    @Migration.autoupdate_in Sample.runtime Sample.connector nat
       Sample.existing_driver Sample.beginTransaction Sample.commit
       Sample.in_models Sample.rollback ["UserData"; "UserData"]
       Sample.world0 in
  let runs := fun model stmts =>
    Sample.in_models model = true /\
    exists colDefs,
      @Sqlite3.buildColumnDefinitions Sample.runtime Sample.connector model
      = Some (VStr colDefs) /\
      (stmts =
         @Migration.table_query Sample.connector model
         :: fmt "CREATE TABLE %s (%s)"
                [@Sqlite3.tableEscaped Sample.connector model; colDefs]
         :: @Sqlite3._buildColumnIndexes Sample.connector model \/
       stmts =
         @Migration.table_query Sample.connector model
         :: @Migration.alteration_run Sample.connector model colDefs) in
  (exists rounds,
     Forall2 runs ["UserData"; "UserData"] rounds /\
     Sqlite3.statements (snd created) = List.concat rounds) /\
  (exists rounds,
     Forall2 runs ["UserData"; "UserData"] rounds /\
     Sqlite3.statements (snd altered) = List.concat rounds).
Proof.
  intros created altered runs. split.
  - apply (@autoupdate_statements Sample.runtime Sample.connector nat
             Sample.driver Sample.beginTransaction Sample.commit
             Sample.in_models Sample.rollback ["UserData"; "UserData"]
             Sample.world0 (snd created)).
    left. vm_compute. reflexivity.
  - apply (@autoupdate_statements Sample.runtime Sample.connector nat
             Sample.existing_driver Sample.beginTransaction Sample.commit
             Sample.in_models Sample.rollback ["UserData"; "UserData"]
             Sample.world0 (snd altered)).
    right. vm_compute. reflexivity.
Defined.

Lemma autoupdate_in_commit_or_rollback_witness :
  fst (@Migration.autoupdate_in_model Sample.runtime Sample.connector nat
         Sample.present_driver Sample.beginTransaction Sample.commit
         Sample.in_models Sample.rollback "UserData" Sample.world0)
  = Sqlite3.Failed
      "SQLITE_CONSTRAINT: UNIQUE constraint failed: t.id (duplicate value)" /\
  Sqlite3.db
    (snd (@Migration.autoupdate_in_model Sample.runtime Sample.connector nat
            Sample.present_driver Sample.beginTransaction Sample.commit
            Sample.in_models Sample.rollback "UserData" Sample.world0))
  = 0%nat.
Proof.
  destruct (proj1 (@autoupdate_in_commit_or_rollback
                     Sample.runtime Sample.connector nat Sample.present_driver
                     Sample.beginTransaction Sample.commit Sample.in_models
                     Sample.rollback "UserData" Sample.world0 2%nat 0%nat
                     eq_refl eq_refl)
              "SQLITE_CONSTRAINT: UNIQUE constraint failed: t.id (duplicate value)"
              eq_refl)
    as (Hfailed & _ & Hdb).
  split; [exact Hfailed | exact Hdb].
Defined.

Lemma alterTable_invalid_definition_witness :
  fst (@Migration._alterTable Sample.runtime
         (Sample.connector_of Sample.PostWithInvalidDefault) nat Sample.driver
         Sample.beginTransaction Sample.commit "PostWithInvalidDefault"
         Sample.world0)
  = Sqlite3.Failed "Invalid numeric default: not-a-number" /\
  Sqlite3.statements
    (snd (@Migration._alterTable Sample.runtime
            (Sample.connector_of Sample.PostWithInvalidDefault) nat Sample.driver
            Sample.beginTransaction Sample.commit "PostWithInvalidDefault"
            Sample.world0))
  = [ "ALTER TABLE " ++ Sample.q "postwithinvaliddefault" ++ " RENAME TO "
      ++ Sample.q "postwithinvaliddefault_old" ].
Proof.
  rewrite (@alterTable_invalid_definition Sample.runtime
             (Sample.connector_of Sample.PostWithInvalidDefault) nat Sample.driver
             Sample.beginTransaction Sample.commit "PostWithInvalidDefault"
             "Invalid numeric default: not-a-number" Sample.world0
             _ 2%nat 0%nat _ eq_refl eq_refl eq_refl).
  split; reflexivity.
Defined.

(** ** Pagination *)

Section PaginationProperties.
Import Sqlite3.
Context {R : Runtime}.

(** A limit or offset that makes it into the clause. *)
Let usable (v : value) : bool := negb (isNaN v) && truthy v.

Lemma isNaN_zero : isNaN (VNum 0%float) = false.
Proof. reflexivity. Qed.

Lemma buildLimit_unfold (filter : Filter) :
  buildLimit filter =
    (join " "
       ((if usable (filter_limit filter)
         then [concat "LIMIT " (filter_limit filter)] else [])
        ++ (if usable (filter_offset filter)
            then [concat "OFFSET " (filter_offset filter)] else []))%list,
     {| filter_limit := if isNaN (filter_limit filter) then VNum 0%float
                        else filter_limit filter;
        filter_offset := if isNaN (filter_offset filter) then VNum 0%float
                         else filter_offset filter |}).
Proof.
  unfold buildLimit, usable. destruct filter as [l o]. simpl.
  destruct (isNaN l) eqn:Hl, (isNaN o) eqn:Ho; simpl;
    rewrite ?Ho; simpl; try reflexivity.
  - destruct (truthy o); reflexivity.
  - destruct (truthy l); reflexivity.
  - destruct (truthy l), (truthy o); reflexivity.
Qed.

(** The clause of [buildLimit] and the filter it leaves, whatever the
    filter holds.  A limit or offset is in the clause exactly when [isNaN]
    accepts it and it is not falsy; the clause is then [LIMIT] and the
    limit as a string, once, followed by [OFFSET] and the offset as a
    string, once, with one space between the two when both are there, and
    nothing else; it is empty when neither is there.  A limit or offset
    that [isNaN] rejects is overwritten with [0] in the filter, and the
    others are left as they are. *)
Theorem buildLimit_clause (filter : Filter) :
  let limit := filter_limit filter in
  let offset := filter_offset filter in
  fst (buildLimit filter) =
    match usable limit, usable offset with
    | true, true =>
        "LIMIT " ++ ToString limit ++ " OFFSET " ++ ToString offset
    | true, false => "LIMIT " ++ ToString limit
    | false, true => "OFFSET " ++ ToString offset
    | false, false => ""
    end /\
  snd (buildLimit filter) =
    {| filter_limit := if isNaN limit then VNum 0%float else limit;
       filter_offset := if isNaN offset then VNum 0%float else offset |}.
Proof.
  intros limit offset. rewrite buildLimit_unfold. simpl. fold limit offset.
  split; [|reflexivity].
  destruct (usable limit), (usable offset); reflexivity.
Qed.

(** [buildLimit] is done with a filter after one pass: on the filter it
    leaves it gives the same clause and leaves the same filter. *)
Theorem buildLimit_idempotent (filter : Filter) :
  buildLimit (snd (buildLimit filter)) = buildLimit filter.
Proof.
  rewrite !buildLimit_unfold. simpl. unfold usable.
  destruct (isNaN (filter_limit filter)) eqn:Hl,
           (isNaN (filter_offset filter)) eqn:Ho;
    rewrite ?isNaN_zero, ?Hl, ?Ho; reflexivity.
Qed.

(** [applyPagination] returns the statement as it is when neither the limit
    nor the offset is a number other than zero, and otherwise merges the
    clause of [buildLimit], which is not empty, into it. *)
Theorem applyPagination_merges
        {PSQL : Type} (merge : PSQL -> string -> PSQL)
        (model : string) (sql : PSQL) (filter : Filter) :
  fst (applyPagination merge model sql filter) =
    if usable (filter_limit filter) || usable (filter_offset filter)
    then merge sql (fst (buildLimit filter))
    else sql.
Proof.
  unfold applyPagination. rewrite buildLimit_unfold. simpl.
  destruct (usable (filter_limit filter)), (usable (filter_offset filter));
    reflexivity.
Qed.

(** The two variants of the connector build the same clause. *)
Theorem buildLimit_variants_agree (limit offset : value) :
  Legacy.buildLimit limit offset =
    fst (buildLimit {| filter_limit := limit; filter_offset := offset |}).
Proof.
  rewrite buildLimit_unfold. simpl. unfold Legacy.buildLimit, usable.
  assert (Hzero : truthy (VNum 0%float) = false) by reflexivity.
  destruct (isNaN limit), (isNaN offset); simpl; rewrite ?Hzero; simpl;
    try reflexivity.
  - destruct (truthy offset); reflexivity.
  - destruct (truthy limit); reflexivity.
  - destruct (truthy limit), (truthy offset); reflexivity.
Qed.

End PaginationProperties.

(** What [isNaN] accepts is not always a number: [true] is printed into the
    clause as it is, while a string that is no number is left out and
    overwritten. *)
Example buildLimit_true :
  @Sqlite3.buildLimit Sample.runtime
    {| Sqlite3.filter_limit := VBool true;
       Sqlite3.filter_offset := VStr "abc" |}
  = ("LIMIT true",
     {| Sqlite3.filter_limit := VBool true;
        Sqlite3.filter_offset := VNum 0%float |}).
Proof. vm_compute. reflexivity. Qed.

(** ** The older variant: escaping and reading back *)

Lemma rev_string_app (s acc : string) :
  rev_string s acc = rev_string s "" ++ acc.
Proof.
  revert acc. induction s as [|c s IH]; simpl; intros acc; [reflexivity|].
  rewrite IH, (IH (String c "")), append_assoc. reflexivity.
Qed.

Lemma rev_string_append (a b : string) :
  rev_string (a ++ b) "" = rev_string b "" ++ rev_string a "".
Proof.
  induction a as [|c a IH]; simpl.
  - now rewrite append_nil_r.
  - rewrite (rev_string_app (a ++ b)), IH, (rev_string_app a (String c "")).
    now rewrite append_assoc.
Qed.

Lemma rev_string_involutive (s : string) :
  rev_string (rev_string s "") "" = s.
Proof.
  induction s as [|c s IH]; simpl; [reflexivity|].
  rewrite (rev_string_app s), rev_string_append, IH. reflexivity.
Qed.

Lemma escapeIdentifier_loop_injective (a : string) :
  forall b,
    Legacy.escapeIdentifier_loop a = Legacy.escapeIdentifier_loop b -> a = b.
Proof.
  induction a as [|c a IH]; intros [|c' b]; simpl; intros H.
  - reflexivity.
  - destruct (Ascii.eqb c' Sqlite3.dquote) eqn:Hc'.
    + injection H as _ H. discriminate.
    + injection H as H _. subst c'. discriminate.
  - destruct (Ascii.eqb c Sqlite3.dquote) eqn:Hc.
    + injection H as _ H. discriminate.
    + injection H as H _. subst c. discriminate.
  - destruct (Ascii.eqb c Sqlite3.dquote) eqn:Hc,
             (Ascii.eqb c' Sqlite3.dquote) eqn:Hc'.
    + apply Ascii.eqb_eq in Hc, Hc'. subst c c'.
      injection H as H. f_equal. now apply IH.
    + injection H as H _. subst c'. rewrite Hc in Hc'. discriminate.
    + injection H as H _. subst c'. rewrite Hc in Hc'. discriminate.
    + injection H as H1 H2. subst c'. f_equal. now apply IH.
Qed.

(** [escapeIdentifier] keeps names apart: two names have the same escaped
    form exactly when they are the same name. *)
Theorem escapeIdentifier_injective (a b : string) :
  Legacy.escapeIdentifier a = Legacy.escapeIdentifier b <-> a = b.
Proof.
  split; [|now intros ->].
  unfold Legacy.escapeIdentifier. intros H. injection H as H.
  now apply escapeIdentifier_loop_injective.
Qed.

Lemma escapeLiteral_body_injective (a : string) :
  forall b,
    fst (Legacy.escapeLiteral_loop a) = fst (Legacy.escapeLiteral_loop b) ->
    a = b.
Proof.
  induction a as [|c a IH]; intros [|c' b]; simpl; intros H.
  - reflexivity.
  - destruct (Legacy.escapeLiteral_loop b) as [body flag].
    destruct (Ascii.eqb c' "'") eqn:Hq; [|destruct (Ascii.eqb c' Legacy.backslash) eqn:Hb];
      simpl in H.
    + injection H as _ H. discriminate.
    + injection H as H _. subst c'. discriminate.
    + injection H as H _. subst c'. discriminate.
  - destruct (Legacy.escapeLiteral_loop a) as [body flag].
    destruct (Ascii.eqb c "'") eqn:Hq; [|destruct (Ascii.eqb c Legacy.backslash) eqn:Hb];
      simpl in H.
    + injection H as _ H. discriminate.
    + injection H as H _. subst c. discriminate.
    + injection H as H _. subst c. discriminate.
  - specialize (IH b).
    destruct (Legacy.escapeLiteral_loop a) as [body flag].
    destruct (Legacy.escapeLiteral_loop b) as [body' flag'].
    simpl in IH.
    destruct (Ascii.eqb c "'") eqn:Hq;
      [|destruct (Ascii.eqb c Legacy.backslash) eqn:Hb];
      (destruct (Ascii.eqb c' "'") eqn:Hq';
       [|destruct (Ascii.eqb c' Legacy.backslash) eqn:Hb']);
      simpl in H; injection H as Hc H; subst c';
      try congruence;
      try (injection H as _ H); f_equal; auto.
Qed.

Lemma escapeLiteral_flag_In (s : string) :
  snd (Legacy.escapeLiteral_loop s) = true <->
  In Legacy.backslash (list_ascii_of_string s).
Proof.
  induction s as [|c s IH]; simpl.
  - split; [discriminate | tauto].
  - destruct (Legacy.escapeLiteral_loop s) as [body flag]. simpl in IH.
    destruct (Ascii.eqb c "'") eqn:Hq; [|destruct (Ascii.eqb c Legacy.backslash) eqn:Hb];
      simpl.
    + rewrite IH. split; [tauto|]. intros [Hc | Hin]; [|assumption].
      subst c. discriminate.
    + apply Ascii.eqb_eq in Hb. subst c. tauto.
    + rewrite IH. split; [tauto|]. intros [Hc | Hin]; [|assumption].
      subst c. rewrite Ascii.eqb_refl in Hb. discriminate.
Qed.

(** [escapeLiteral] marks a literal with the prefix [ E] exactly when the
    string holds a backslash. *)
Theorem escapeLiteral_flag (s : string) :
  startsWith " E" (Legacy.escapeLiteral s) = true <->
  In Legacy.backslash (list_ascii_of_string s).
Proof.
  rewrite <- escapeLiteral_flag_In. unfold Legacy.escapeLiteral.
  destruct (Legacy.escapeLiteral_loop s) as [body [|]]; simpl.
  - tauto.
  - split; discriminate.
Qed.

(** [escapeLiteral] keeps strings apart: two strings have the same literal
    exactly when they are the same string. *)
Theorem escapeLiteral_injective (a b : string) :
  Legacy.escapeLiteral a = Legacy.escapeLiteral b <-> a = b.
Proof.
  split; [|now intros ->].
  unfold Legacy.escapeLiteral. intros H.
  apply escapeLiteral_body_injective.
  destruct (Legacy.escapeLiteral_loop a) as [body [|]],
           (Legacy.escapeLiteral_loop b) as [body' [|]];
    simpl in *; try discriminate; now injection H.
Qed.

Section LegacyReading.
Import Legacy.
Context {R : Runtime}.
Variable toISOString : float -> option string.
Variable getField : value -> string -> value.
Variable makePoint : value -> value -> value.

(** In the older variant a Boolean is stored and read back by its
    truthiness: whatever value that is not null is written for a Boolean
    property, [toColumnValue] stores [true] when the value is truthy and
    [false] otherwise, and [fromColumnValue] gives the stored boolean back;
    so [0] and the empty string read back [false], and every other string,
    the letters [F] and [n] included, reads back [true]. *)
Theorem legacy_boolean_round_trip (prop : Property) (v : value) :
  prop_type prop = TBoolean ->
  eq_null v = false ->
  toColumnValue toISOString getField prop v = Some (Plain (VBool (truthy v))) /\
  fromColumnValue getField makePoint prop (VBool (truthy v))
  = VBool (truthy v).
Proof.
  intros Hp Hnull. unfold toColumnValue, fromColumnValue.
  rewrite Hnull, Hp. simpl. split; reflexivity.
Qed.

Lemma point_tokens_word (a rest cur : string) :
  Forall (fun c => is_point_separator c = false) (list_ascii_of_string a) ->
  point_tokens (a ++ rest) cur = point_tokens rest (rev_string a cur).
Proof.
  revert cur. induction a as [|c a IH]; simpl; intros cur Hall; [reflexivity|].
  inversion Hall as [|c0 l Hc Hrest]; subst. rewrite Hc. now apply IH.
Qed.

Lemma rev_string_not_empty (c : ascii) (a : string) :
  String.eqb (rev_string (String c a) "") "" = false.
Proof.
  simpl. rewrite rev_string_app.
  destruct (rev_string a ""); reflexivity.
Qed.

(** The text [mapToDB] writes for a point is read back as its two
    coordinates. *)
Lemma point_tokens_pair (a b : string) :
  a <> "" -> b <> "" ->
  Forall (fun c => is_point_separator c = false) (list_ascii_of_string a) ->
  Forall (fun c => is_point_separator c = false) (list_ascii_of_string b) ->
  point_tokens ("(" ++ a ++ "," ++ b ++ ")") "" = [a; b].
Proof.
  intros Ha Hb Hsa Hsb.
  change ("(" ++ a ++ "," ++ b ++ ")")
    with (String "(" (a ++ String "," (b ++ ")"))).
  cbn [point_tokens]. change (is_point_separator "(") with true. cbn iota.
  change (String.eqb "" "") with true. cbn iota. simpl app.
  rewrite (point_tokens_word a _ "" Hsa).
  cbn [point_tokens]. change (is_point_separator ",") with true. cbn iota.
  destruct a as [|c a]; [congruence|]. rewrite rev_string_not_empty.
  rewrite rev_string_involutive. simpl app.
  rewrite (point_tokens_word b _ "" Hsb).
  cbn [point_tokens]. change (is_point_separator ")") with true. cbn iota.
  destruct b as [|c' b]; [congruence|]. rewrite rev_string_not_empty.
  rewrite rev_string_involutive. reflexivity.
Qed.

Lemma fromColumnValue_point_string (prop : Property) (s : string) :
  type_name (prop_type prop) = "GeoPoint" ->
  fromColumnValue getField makePoint prop (VStr s) =
    makePoint (coordinate (point_tokens s "") 0)
              (coordinate (point_tokens s "") 1).
Proof.
  intros Htype. unfold fromColumnValue. now rewrite Htype.
Qed.

(** A GeoPoint written by [mapToDB] is read back by [fromColumnValue]: for a
    point whose coordinates are numbers that print without parentheses,
    commas or white space, [mapToDB] stores one string, and [fromColumnValue]
    makes of it the point whose coordinates are what [Number] reads in the
    printed latitude and longitude. *)
Theorem mapToDB_fromColumnValue_point
        (props : list (string * Property)) (prop : Property)
        (p : string) (v : value) (lat lng : float) :
  Sqlite3.lookup p props = Some prop ->
  type_name (prop_type prop) = "GeoPoint" ->
  truthy v = true ->
  getField v "lat" = VNum lat ->
  getField v "lng" = VNum lng ->
  NumberToString lat <> "" ->
  NumberToString lng <> "" ->
  Forall (fun c => is_point_separator c = false)
         (list_ascii_of_string (NumberToString lat)) ->
  Forall (fun c => is_point_separator c = false)
         (list_ascii_of_string (NumberToString lng)) ->
  exists stored,
    mapToDB getField props [(p, v)] = [(p, stored)] /\
    fromColumnValue getField makePoint prop stored
    = makePoint (VNum (StringToNumber (NumberToString lat)))
                (VNum (StringToNumber (NumberToString lng))).
Proof.
  intros Hprop Htype Htruthy Hlat Hlng Ha Hb Hsa Hsb.
  exists (VStr ("(" ++ NumberToString lat ++ "," ++ NumberToString lng ++ ")")).
  split.
  - unfold mapToDB. simpl. rewrite Hprop, Htype, Htruthy, Hlat, Hlng. simpl.
    unfold concat. simpl. rewrite !append_assoc. reflexivity.
  - rewrite (fromColumnValue_point_string _ _ Htype).
    rewrite (point_tokens_pair _ _ Ha Hb Hsa Hsb). reflexivity.
Qed.

End LegacyReading.

Lemma legacy_boolean_round_trip_witness :
  @Legacy.toColumnValue Sample.runtime (fun _ => None) Sample.getField
     Sample.approved (VStr "F")
  = Some (Legacy.Plain (VBool true)) /\
  @Legacy.fromColumnValue Sample.runtime Sample.getField Sample.makePoint
     Sample.approved (VBool true)
  = VBool true.
Proof.
  exact (@legacy_boolean_round_trip Sample.runtime (fun _ => None)
           Sample.getField Sample.makePoint Sample.approved (VStr "F")
           eq_refl eq_refl).
Defined.

Lemma mapToDB_fromColumnValue_point_witness :
  exists stored,
    @Legacy.mapToDB Sample.runtime Sample.getField [("loc", Sample.geoPoint)]
       [("loc", VObject 2001)]
    = [("loc", stored)] /\
    @Legacy.fromColumnValue Sample.runtime Sample.getField Sample.makePoint
       Sample.geoPoint stored
    = VObject 2001.
Proof.
  refine (@mapToDB_fromColumnValue_point Sample.runtime Sample.getField
            Sample.makePoint [("loc", Sample.geoPoint)] Sample.geoPoint
            "loc" (VObject 2001) 2%float 1%float
            eq_refl eq_refl eq_refl eq_refl eq_refl _ _ _ _);
    vm_compute; try discriminate; repeat constructor.
Defined.

(** ** Index statements *)

Lemma lower_ascii_idempotent (c : ascii) :
  lower_ascii (lower_ascii c) = lower_ascii c.
Proof. destruct c as [[] [] [] [] [] [] [] []]; reflexivity. Qed.

Lemma is_space_lower_ascii (c : ascii) : is_space (lower_ascii c) = is_space c.
Proof. destruct c as [[] [] [] [] [] [] [] []]; reflexivity. Qed.

Lemma toLowerCase_idempotent (s : string) :
  toLowerCase (toLowerCase s) = toLowerCase s.
Proof.
  induction s as [|c s IH]; simpl; [reflexivity|].
  now rewrite lower_ascii_idempotent, IH.
Qed.

Lemma toLowerCase_append (a b : string) :
  toLowerCase (a ++ b) = toLowerCase a ++ toLowerCase b.
Proof. induction a as [|c a IH]; simpl; [reflexivity | now rewrite IH]. Qed.

Lemma trimStart_toLowerCase (s : string) :
  trimStart (toLowerCase s) = toLowerCase (trimStart s).
Proof.
  induction s as [|c s IH]; simpl; [reflexivity|].
  rewrite is_space_lower_ascii. now destruct (is_space c).
Qed.

Lemma rev_string_toLowerCase (s acc : string) :
  rev_string (toLowerCase s) (toLowerCase acc) = toLowerCase (rev_string s acc).
Proof.
  revert acc. induction s as [|c s IH]; simpl; intros acc; [reflexivity|].
  apply (IH (String c acc)).
Qed.

Lemma trim_toLowerCase (s : string) : trim (toLowerCase s) = toLowerCase (trim s).
Proof.
  unfold trim.
  rewrite trimStart_toLowerCase.
  rewrite (rev_string_toLowerCase _ ""), trimStart_toLowerCase.
  apply (rev_string_toLowerCase _ "").
Qed.

Lemma trimStart_idempotent (s : string) : trimStart (trimStart s) = trimStart s.
Proof.
  induction s as [|c s IH]; simpl; [reflexivity|].
  destruct (is_space c) eqn:Hc; [assumption|]. simpl. now rewrite Hc.
Qed.

Lemma trimStart_snoc (u : string) (c : ascii) :
  is_space c = false ->
  trimStart (u ++ String c "") = trimStart u ++ String c "".
Proof.
  intros Hc. induction u as [|d u IH]; simpl; [now rewrite Hc|].
  now destruct (is_space d).
Qed.

(** What [trimStart] leaves is empty or starts with a character that is no
    white space, and what the second pass leaves is so too. *)
Lemma trimStart_head (s : string) :
  trimStart s = "" \/
  exists c t, trimStart s = String c t /\ is_space c = false.
Proof.
  induction s as [|c s IH]; simpl; [now left|].
  destruct (is_space c) eqn:Hc; [assumption|]. right. now exists c, s.
Qed.

Lemma trim_head (s : string) : trimStart (trim s) = trim s.
Proof.
  unfold trim. destruct (trimStart_head s) as [-> | (c & t & -> & Hc)];
    [reflexivity|].
  simpl. rewrite (rev_string_app t), (trimStart_snoc _ c Hc).
  rewrite rev_string_append. simpl. now rewrite Hc.
Qed.

Lemma trim_idempotent (s : string) : trim (trim s) = trim s.
Proof.
  unfold trim at 1. rewrite trim_head. unfold trim.
  now rewrite rev_string_involutive, trimStart_idempotent.
Qed.

Lemma dbName_toLowerCase (name : string) : Sqlite3.dbName name = toLowerCase name.
Proof. unfold Sqlite3.dbName. now destruct name. Qed.

(** Lower-casing and trimming a column name a second time changes
    nothing. *)
Lemma column_name_idempotent (c : string) :
  trim (Sqlite3.dbName (trim (Sqlite3.dbName c))) = trim (Sqlite3.dbName c).
Proof.
  rewrite !dbName_toLowerCase, trim_toLowerCase, trim_idempotent.
  now rewrite <- trim_toLowerCase, toLowerCase_idempotent.
Qed.

Section IndexProperties.
Import Sqlite3.
Context {C : SqlConnector}.

Lemma lookup_NoDup {A : Type} (l : list (string * A)) (name : string) (a : A) :
  NoDup (map fst l) -> In (name, a) l -> lookup name l = Some a.
Proof.
  induction l as [|[k v] l IH]; simpl; intros Hnd Hin; [tauto|].
  inversion Hnd as [|k0 l0 Hk Hrest]; subst.
  destruct Hin as [Heq | Hin].
  - injection Heq as -> ->. now rewrite String.eqb_refl.
  - destruct (String.eqb k name) eqn:Hkn; [|auto].
    apply String.eqb_eq in Hkn. subst k. exfalso. apply Hk.
    apply (in_map fst) in Hin. exact Hin.
Qed.

(** The first statements of [_buildColumnIndexes] are one for each property
    of the model that has a name and a truthy [index], in the order of the
    properties: the index [<model>_<property>] on the column of that name,
    both lower-cased and escaped. *)
Theorem property_indexes_one_each (model : string) :
  NoDup (map fst (properties (getModelDefinition model))) ->
  property_indexes model =
    map (fun entry : string * Property =>
           create_index (escape (model ++ "_" ++ fst entry))
                        (tableEscaped model) (escape (fst entry)))
        (filter (fun entry : string * Property =>
                   negb (String.eqb (fst entry) "")
                   && truthy (prop_index (snd entry)))
                (properties (getModelDefinition model))).
Proof.
  intros Hnd. unfold property_indexes.
  set (props := properties (getModelDefinition model)) in *.
  assert (H : forall l,
    (forall n p, In (n, p) l -> lookup n props = Some p) ->
    flat_map
      (fun propertyName =>
         if String.eqb propertyName "" then []
         else
           match lookup propertyName props with
           | Some property =>
               if truthy (prop_index property) then
                 [create_index (escape (model ++ "_" ++ propertyName))
                               (tableEscaped model) (escape propertyName)]
               else []
           | None => []
           end)
      (map fst l) =
    map (fun entry : string * Property =>
           create_index (escape (model ++ "_" ++ fst entry))
                        (tableEscaped model) (escape (fst entry)))
        (filter (fun entry : string * Property =>
                   negb (String.eqb (fst entry) "")
                   && truthy (prop_index (snd entry))) l)).
  { induction l as [|[n p] l IH]; intros Hl; [reflexivity|].
    cbn [map flat_map fst].
    rewrite IH by (intros n' p' Hin; apply Hl; now right).
    rewrite (Hl n p (or_introl eq_refl)).
    cbn [filter fst snd].
    destruct (String.eqb n ""); cbn [negb andb]; [reflexivity|].
    now destruct (truthy (prop_index p)). }
  apply H. intros n p Hin. now apply lookup_NoDup.
Qed.

(** [columns] is not cleared between the entries of [settings.indexes]: an
    entry that names neither [columns] nor [keys] and comes right after an
    entry that names [columns] is not skipped; its index is created over the
    columns of the entry before it. *)
Theorem buildColumnIndexes_reuses_columns
        (model : string) (index1 index2 c : string) (keys1 : option IndexKeys) :
  settings_indexes (getModelDefinition model)
  = Some [ (index1, {| idx_columns := Some c; idx_keys := keys1 |});
           (index2, {| idx_columns := None; idx_keys := None |}) ] ->
  String.eqb index1 "" = false ->
  String.eqb index2 "" = false ->
  String.eqb c "" = false ->
  let columns :=
    join "," (map escape (map (fun c => trim (dbName c)) (split_comma c))) in
  _buildColumnIndexes model =
    (property_indexes model
     ++ [ create_index (escape index1) (tableEscaped model) columns;
          create_index (escape index2) (tableEscaped model) columns ])%list.
Proof.
  intros Hsettings H1 H2 Hc columns.
  assert (Hnorm : forall l,
    map (fun c => trim (dbName c)) (map (fun c => trim (dbName c)) l)
    = map (fun c => trim (dbName c)) l).
  { intros l. rewrite map_map. apply map_ext. intros x.
    apply column_name_idempotent. }
  unfold _buildColumnIndexes. rewrite Hsettings. f_equal.
  simpl. rewrite H1, H2, Hc. simpl. rewrite Hnorm. reflexivity.
Qed.

(** An entry that names neither [columns] nor [keys] is skipped when no
    entry before it named any. *)
Theorem buildColumnIndexes_skips_first_unresolved
        (model : string) (index : string) (rest : list (string * IndexDef)) :
  settings_indexes (getModelDefinition model)
  = Some ((index, {| idx_columns := None; idx_keys := None |}) :: rest) ->
  _buildColumnIndexes model =
    (property_indexes model ++ settings_indexes_loop model rest None)%list.
Proof.
  intros Hsettings. unfold _buildColumnIndexes. rewrite Hsettings. f_equal.
  simpl. now destruct (String.eqb index "").
Qed.

End IndexProperties.

Lemma property_indexes_one_each_witness :
  @Sqlite3.property_indexes Sample.connector "UserData"
  = [ "CREATE INDEX IF NOT EXISTS " ++ Sample.q "userdata_email" ++ " ON "
      ++ Sample.q "userdata" ++ " (" ++ Sample.q "email" ++ ")" ].
Proof.
  rewrite (@property_indexes_one_each Sample.connector "UserData").
  - reflexivity.
  - simpl. repeat constructor; simpl; intuition discriminate.
Defined.

Lemma buildColumnIndexes_reuses_columns_witness :
  @Sqlite3._buildColumnIndexes (Sample.connector_of Sample.Indexed) "UserData"
  = [ "CREATE INDEX IF NOT EXISTS " ++ Sample.q "userdata_email" ++ " ON "
      ++ Sample.q "userdata" ++ " (" ++ Sample.q "email" ++ ")";
      "CREATE INDEX IF NOT EXISTS " ++ Sample.q "index0" ++ " ON "
      ++ Sample.q "userdata" ++ " (" ++ Sample.q "email" ++ ","
      ++ Sample.q "createdbyadmin" ++ ")";
      "CREATE INDEX IF NOT EXISTS " ++ Sample.q "index1" ++ " ON "
      ++ Sample.q "userdata" ++ " (" ++ Sample.q "email" ++ ","
      ++ Sample.q "createdbyadmin" ++ ")" ].
Proof.
  rewrite (@buildColumnIndexes_reuses_columns
             (Sample.connector_of Sample.Indexed) "UserData"
             "index0" "index1" "email, createdByAdmin" None
             eq_refl eq_refl eq_refl eq_refl).
  reflexivity.
Defined.

Lemma buildColumnIndexes_skips_first_unresolved_witness :
  @Sqlite3._buildColumnIndexes (Sample.connector_of Sample.Unresolved) "UserData"
  = [ "CREATE INDEX IF NOT EXISTS " ++ Sample.q "userdata_email" ++ " ON "
      ++ Sample.q "userdata" ++ " (" ++ Sample.q "email" ++ ")" ].
Proof.
  rewrite (@buildColumnIndexes_skips_first_unresolved
             (Sample.connector_of Sample.Unresolved) "UserData" "index1" []
             eq_refl).
  reflexivity.
Defined.

(** ** Which entry point of the driver a statement goes to *)

Lemma trimStart_spaces (ws s : string) :
  Forall (fun c => is_space c = true) (list_ascii_of_string ws) ->
  trimStart (ws ++ s) = trimStart s.
Proof.
  induction ws as [|c ws IH]; simpl; intros H; [reflexivity|].
  inversion H as [|c0 l Hc Hrest]; subst. rewrite Hc. now apply IH.
Qed.

Lemma trimStart_before (x z : string) :
  trimStart z = z -> exists x', trimStart (x ++ z) = x' ++ z.
Proof.
  intros Hz. induction x as [|d x IH]; simpl.
  - now exists "".
  - destruct (is_space d); [assumption|]. now exists (String d x).
Qed.

(** [trim] keeps a word that starts and ends with a character that is no
    white space, and the white space in front of it goes. *)
Lemma trim_keeps_word (ws a rest : string) (c d : ascii) (a' z : string) :
  Forall (fun c => is_space c = true) (list_ascii_of_string ws) ->
  a = String c a' -> is_space c = false ->
  rev_string a "" = String d z -> is_space d = false ->
  exists rest', trim (ws ++ a ++ rest) = a ++ rest'.
Proof.
  intros Hws Ha Hc Hrev Hd. unfold trim.
  rewrite (trimStart_spaces ws _ Hws).
  assert (Hstart : trimStart (a ++ rest) = a ++ rest).
  { subst a. simpl. now rewrite Hc. }
  rewrite Hstart, rev_string_append.
  destruct (trimStart_before (rev_string rest "") (rev_string a "")) as [x' Hx'].
  { rewrite Hrev. simpl. now rewrite Hd. }
  rewrite Hx', rev_string_append, rev_string_involutive. now eexists.
Qed.

Lemma prefix_append (p s : string) : String.prefix p (p ++ s) = true.
Proof.
  induction p as [|c p IH]; simpl; [now destruct s|].
  destruct (ascii_dec c c); [assumption | congruence].
Qed.

Lemma is_space_of_lower (c l : ascii) :
  lower_ascii c = l -> is_space l = false -> is_space c = false.
Proof. intros <-. now rewrite is_space_lower_ascii. Qed.

Section StatementKind.
Import Sqlite3.
Context {Db : Type} {D : Driver Db}.

(** A statement whose first word, after any white space, is [select] or
    [pragma] in letters of any case goes to the driver's [all]. *)
Theorem executeWithConnection_select
        (ws kw rest : string) (params : list value) (client : nat) (w : World Db) :
  Forall (fun c => is_space c = true) (list_ascii_of_string ws) ->
  toLowerCase kw = "select" \/ toLowerCase kw = "pragma" ->
  exists call,
    calls (snd (executeWithConnection (ws ++ kw ++ rest) params client w))
    = (calls w ++ [call])%list /\
    call_sql call = ws ++ kw ++ rest /\
    call_method call = All.
Proof.
  intros Hws Hkw.
  assert (Htrim : exists rest', trim (ws ++ kw ++ rest) = kw ++ rest').
  { destruct kw as [|c1 [|c2 [|c3 [|c4 [|c5 [|c6 [|c7 kw]]]]]]];
      try (destruct Hkw; discriminate).
    eapply (trim_keeps_word ws _ rest c1 c6);
      [exact Hws | reflexivity | | reflexivity | ].
    - destruct Hkw as [H | H]; injection H as H1 _;
        eapply is_space_of_lower; eauto.
    - destruct Hkw as [H | H]; injection H as _ _ _ _ _ H6;
        eapply is_space_of_lower; eauto. }
  destruct Htrim as [rest' Htrim].
  unfold executeWithConnection. rewrite Htrim, toLowerCase_append.
  destruct (exec _ (db w)) as [reply db'].
  rewrite (proj1 (processResult_world reply _)). simpl calls.
  eexists. split; [reflexivity|]. split; [reflexivity|]. simpl.
  destruct Hkw as [-> | ->].
  - now rewrite prefix_append.
  - rewrite prefix_append. now rewrite orb_true_r.
Qed.

End StatementKind.

Lemma executeWithConnection_select_witness :
  exists call,
    Sqlite3.calls
      (snd (@Sqlite3.executeWithConnection nat Sample.driver
              "  Select name FROM sqlite_master" [] 1%nat Sample.world0))
    = [call] /\
    Sqlite3.call_method call = Sqlite3.All.
Proof.
  destruct (@executeWithConnection_select nat Sample.driver
              "  " "Select" " name FROM sqlite_master" [] 1%nat Sample.world0)
    as (call & Hcalls & _ & Hmethod).
  - repeat constructor.
  - now left.
  - exists call. split; assumption.
Defined.

Lemma alterTable_succeeds_witness :
  exists w',
    @Migration._alterTable Sample.runtime Sample.connector nat Sample.driver
       Sample.beginTransaction Sample.commit "UserData" Sample.world0
    = (Sqlite3.Done tt, w').
Proof.
  eapply (@alterTable_succeeds Sample.runtime Sample.connector nat Sample.driver
            Sample.beginTransaction Sample.commit "UserData").
  - intros call d. reflexivity.
  - intros d. now exists 1%nat.
  - intros d. now exists 2%nat.
  - intros c d. reflexivity.
  - vm_compute. reflexivity.
Defined.
